(** * Climate / MNCH dashboard: the scenario computation of
      [export_static_preview.py]

    The development embeds the numeric core of the static-preview script:
    the four reference tables, the three list helpers, the projection
    function [calculate_additional_outcomes_and_costs] and the module-level
    comparison and indicator computation.

    Modelling conventions.
    - A Python [float] is read as a real number ([R]); [+ - * /] are the
      field operations.  [x ** y] with a float exponent is [Rpower] (every
      odds ratio of the table is positive), [x ** n] with an [int] exponent
      is [powerRZ].
    - A Python [int] is [Z]; [range(a, b)] is the list [a, a+1, ..., b-1].
    - A [dict] literal is an association list in source order; [d[k]] on a
      missing key raises [KeyError], which is the [Err] branch of [Result].
    - [zip] is [combine]: it stops at the shorter list.
    - Arithmetic is exact.  The rounding of binary64 and the exceptions of
      float arithmetic ([OverflowError] of [**] on very long ranges,
      [ZeroDivisionError]) are outside the model; [KeyError] is the one
      exception modelled.  The statements keep the operation order of the
      code, or are order relations with room to spare, so that they do not
      rest on re-associating sums or products. *)

From Stdlib Require Import Reals Lra Lia ZArith String List Bool.
Import ListNotations.

Open Scope R_scope.

(** ** Exceptions and the error monad *)

Inductive PyError : Type :=
| KeyError (key : string).

Inductive Result (A : Type) : Type :=
| Ok (a : A)
| Err (e : PyError).

Arguments Ok {A} a.
Arguments Err {A} e.

Definition bind {A B : Type} (m : Result A) (k : A -> Result B) : Result B :=
  match m with
  | Ok a => k a
  | Err e => Err e
  end.

Notation "x <- m ;; k" := (bind m (fun x => k))
  (at level 61, m at next level, right associativity).

(** ** Dictionaries with string keys *)

Definition Dict (V : Type) : Type := list (string * V).

Fixpoint get {V : Type} (d : Dict V) (k : string) : option V :=
  match d with
  | [] => None
  | (k', v) :: d' => if String.eqb k' k then Some v else get d' k
  end.

(** [d[k]]: the value, or [KeyError(k)]. *)
Definition getitem {V : Type} (d : Dict V) (k : string) : Result V :=
  match get d k with
  | Some v => Ok v
  | None => Err (KeyError k)
  end.

(** ** Model inputs *)

Record OutcomeProfile : Type := mkOutcome {
  odds_ratio : R;
  current_rate : R;
  cost_per_case : R;
  ci_lower : R;
  ci_upper : R
}.

Definition mnch_outcomes : Dict OutcomeProfile :=
  [ ("Gestational Diabetes"%string, mkOutcome 1.07 0.05 2000 1.01 1.54);
    ("Hypertension during Pregnancy"%string, mkOutcome 1.12 0.1 1500 1.03 1.21);
    ("Maternal Admission"%string, mkOutcome 1.01 0.02 1000 1.00 1.03);
    ("Infections"%string, mkOutcome 1.29 0.02 800 1.05 1.58);
    ("Prelabour Rupture of Membranes"%string, mkOutcome 1.08 0.02 1200 1.07 1.09);
    ("Antenatal Bleeding"%string, mkOutcome 1.16 0.005 2500 1.13 1.40);
    ("Cardiovascular Event"%string, mkOutcome 1.11 0.01 3000 1.06 1.15);
    ("Stillbirth"%string, mkOutcome 1.14 0.005 5000 0.99 1.32);
    ("Congenital Anomalies"%string, mkOutcome 1.13 0.02 10000 0.99 1.85);
    ("Spontaneous Abortion"%string, mkOutcome 1.31 0.01 5000 0.99 3.30);
    ("Non-reassuring Fetal Status"%string, mkOutcome 1.21 0.02 800 1.12 1.32);
    ("Composite Outcome"%string, mkOutcome 1.42 0.1 2000 1.00 2.03);
    ("Preterm Birth"%string, mkOutcome 1.04 0.1 32000 1.03 1.06);
    ("Low Birth Weight"%string, mkOutcome 1.13 0.08 800 1.02 1.26);
    ("Small for Gestational Age"%string, mkOutcome 1.10 0.02 800 1.02 1.18);
    ("Neonatal Admission"%string, mkOutcome 1.22 0.02 1500 1.02 1.43);
    ("Neonatal Morbidity"%string, mkOutcome 1.04 0.02 800 1.03 1.06);
    ("Obstetric Complication"%string, mkOutcome 1.05 0.1 1500 1.03 1.06) ].

Definition rcp_scenarios : Dict R :=
  [ ("RCP 2.6"%string, 1.5);
    ("RCP 4.5"%string, 2.4);
    ("RCP 6.0"%string, 3.0);
    ("RCP 8.5"%string, 4.3) ].

Definition population_growth_rates : Dict R :=
  [ ("Low Growth"%string, 0.01);
    ("Medium Growth"%string, 0.02);
    ("High Growth"%string, 0.03) ].

Definition pregnancy_growth_rates : Dict R :=
  [ ("High Reduction"%string, -0.15);
    ("Medium Reduction"%string, -0.1);
    ("Low Reduction"%string, -0.05);
    ("Low Growth"%string, 0.01);
    ("Medium Growth"%string, 0.02);
    ("High Growth"%string, 0.03) ].

(** ** Helpers *)

(** [range(lo, hi)]; empty when [hi <= lo]. *)
Definition range (lo hi : Z) : list Z :=
  map (fun k => (lo + Z.of_nat k)%Z) (seq 0 (Z.to_nat (hi - lo))).

Definition calculate_population_growth
    (initial_population growth_rate : R) (num_years : Z) : list R :=
  map (fun year => initial_population * powerRZ (1 + growth_rate) year)
      (range 0 num_years).

Definition calculate_pregnancies (population : list R) (pregnancy_rate : R)
    : list R :=
  map (fun pop => pop * pregnancy_rate) population.

Definition calculate_temperature_increase_per_year
    (temp_increase_2100 : R) (start_year end_year : Z) : list R :=
  let total_years := (2100 - 2024)%Z in
  let annual_increase := temp_increase_2100 / IZR total_years in
  map (fun year => annual_increase * IZR (year - 2024))
      (range start_year (end_year + 1)).

(** ** The projection *)

(** The local variables of [calculate_additional_outcomes_and_costs] at its
    [return] statement. *)
Record Locals : Type := mkLocals {
  l_odds_ratio : R;
  l_ci_lower : R;
  l_ci_upper : R;
  l_current_rate : R;
  l_cost_per_case : R;
  l_temp_increase_2100 : R;
  l_population_growth_rate : R;
  l_pregnancy_growth_rate : R;
  l_num_years : Z;
  l_selected_years : list Z;
  l_population_growth_selected : list R;
  l_pregnancies : list R;
  l_baseline_outcomes : list R;
  l_temperature_increase_per_year : list R;
  l_projected_rates : list R;
  l_projected_outcomes : list R;
  l_additional_outcomes : list R;
  l_effective_additional_outcomes : list R;
  l_effective_additional_outcomes_lower : list R;
  l_effective_additional_outcomes_upper : list R;
  l_costs : list R;
  l_costs_lower : list R;
  l_costs_upper : list R
}.

(** The body of the function up to, and not including, [return]. *)
Definition projection_locals
    (outcome rcp_scenario population_growth_curve pregnancy_growth_curve
       : string)
    (time_period : Z * Z)
    (current_population initial_pregnancy_rate adaptation_effectiveness : R)
    : Result Locals :=
  odds_ratio <- (p <- getitem mnch_outcomes outcome ;; Ok (odds_ratio p)) ;;
  ci_lower <- (p <- getitem mnch_outcomes outcome ;; Ok (ci_lower p)) ;;
  ci_upper <- (p <- getitem mnch_outcomes outcome ;; Ok (ci_upper p)) ;;
  current_rate <- (p <- getitem mnch_outcomes outcome ;; Ok (current_rate p)) ;;
  cost_per_case <- (p <- getitem mnch_outcomes outcome ;; Ok (cost_per_case p)) ;;
  temp_increase_2100 <- getitem rcp_scenarios rcp_scenario ;;
  population_growth_rate <-
    getitem population_growth_rates population_growth_curve ;;
  pregnancy_growth_rate <-
    getitem pregnancy_growth_rates pregnancy_growth_curve ;;
  let '(start_year, end_year) := time_period in
  let num_years := (end_year - start_year + 1)%Z in
  let selected_years := range start_year (end_year + 1) in
  let population_growth_selected :=
    calculate_population_growth current_population population_growth_rate
                                num_years in
  let pregnancies :=
    calculate_pregnancies population_growth_selected
      (initial_pregnancy_rate * (1 + pregnancy_growth_rate)) in
  let baseline_outcomes := map (fun preg => preg * current_rate) pregnancies in
  let temperature_increase_per_year :=
    calculate_temperature_increase_per_year temp_increase_2100
                                            start_year end_year in
  let projected_rates :=
    map (fun temp_increase => current_rate * Rpower odds_ratio temp_increase)
        temperature_increase_per_year in
  let projected_outcomes :=
    map (fun '(rate, preg) => rate * preg)
        (combine projected_rates pregnancies) in
  let additional_outcomes :=
    map (fun '(proj, base) => proj - base)
        (combine projected_outcomes baseline_outcomes) in
  let effective_additional_outcomes :=
    map (fun o => o * (1 - adaptation_effectiveness / 100))
        additional_outcomes in
  let effective_additional_outcomes_lower :=
    map (fun o => o * (1 - adaptation_effectiveness / 100) * ci_lower
                  / odds_ratio)
        additional_outcomes in
  let effective_additional_outcomes_upper :=
    map (fun o => o * (1 - adaptation_effectiveness / 100) * ci_upper
                  / odds_ratio)
        additional_outcomes in
  let costs :=
    map (fun o => o * cost_per_case) effective_additional_outcomes in
  let costs_lower :=
    map (fun o => o * cost_per_case) effective_additional_outcomes_lower in
  let costs_upper :=
    map (fun o => o * cost_per_case) effective_additional_outcomes_upper in
  Ok (mkLocals odds_ratio ci_lower ci_upper current_rate cost_per_case
        temp_increase_2100 population_growth_rate pregnancy_growth_rate
        num_years selected_years population_growth_selected pregnancies
        baseline_outcomes temperature_increase_per_year projected_rates
        projected_outcomes additional_outcomes effective_additional_outcomes
        effective_additional_outcomes_lower
        effective_additional_outcomes_upper costs costs_lower costs_upper).

(** The returned 8-tuple, in the order of the [return] statement. *)
Definition Projection : Type :=
  (list Z * list R * list R * list R * list R * list R * list R * list R)%type.

Definition calculate_additional_outcomes_and_costs
    (outcome rcp_scenario population_growth_curve pregnancy_growth_curve
       : string)
    (time_period : Z * Z)
    (current_population initial_pregnancy_rate adaptation_effectiveness : R)
    : Result Projection :=
  l <- projection_locals outcome rcp_scenario population_growth_curve
         pregnancy_growth_curve time_period current_population
         initial_pregnancy_rate adaptation_effectiveness ;;
  Ok (l_selected_years l, l_effective_additional_outcomes l, l_costs l,
      l_additional_outcomes l, l_effective_additional_outcomes_lower l,
      l_effective_additional_outcomes_upper l, l_costs_lower l,
      l_costs_upper l).

Definition calculate_attributable_fraction (odds_ratio : R) : R :=
  (odds_ratio - 1) / odds_ratio.

(** ** The preview computation (module level of the script) *)

(** Built-in [sum]: a left fold of [+] from [0]. *)
Definition sum (l : list R) : R := fold_left Rplus l 0.

(** Built-in [round(x)] on a float: the nearest integer, ties to even. *)
Definition round (x : R) : Z :=
  let f := Zfloor x in
  let d := x - IZR f in
  if Rlt_dec d (1 / 2) then f
  else if Rlt_dec (1 / 2) d then (f + 1)%Z
  else if Z.even f then f else (f + 1)%Z.

(** Built-in [round(x, ndigits)]: the nearest multiple of [10 ** -ndigits],
    ties to even. *)
Definition round_ndigits (x : R) (ndigits : Z) : R :=
  IZR (round (x * powerRZ 10 ndigits)) / powerRZ 10 ndigits.

(** The [DEFAULTS] dictionary, one field per key. *)
Record Defaults : Type := mkDefaults {
  d_outcome : string;
  d_rcp_scenario : string;
  d_population_growth_curve : string;
  d_pregnancy_growth_curve : string;
  d_time_period : Z * Z;
  d_current_population : R;
  d_initial_pregnancy_rate : R;
  d_adaptation_effectiveness : R
}.

Definition DEFAULTS : Defaults :=
  mkDefaults "Preterm Birth" "RCP 2.6" "Medium Growth" "Medium Growth"
             (2024, 2030)%Z 7000000000 0.02 50.

(** The module-level names bound between "Compute preview" and "Figures". *)
Record Globals : Type := mkGlobals {
  g_sy : list Z;
  g_eff_add_outcomes : list R;
  g_costs : list R;
  g_add_outcomes : list R;
  g_eff_low : list R;
  g_eff_up : list R;
  g_cost_low : list R;
  g_cost_up : list R;
  g_worst_eff_add : list R;
  g_worst_costs : list R;
  g_worst_add : list R;
  g_zero_adapt_outcomes : list R;
  g_zero_adapt_costs : list R;
  g_mitigation_savings : list R;
  g_adaptation_savings : list R;
  g_mitigation_prevented : list R;
  g_adaptation_prevented : list R;
  g_odds_ratio : R;
  g_current_rate : R;
  g_attrib_frac : R;
  g_total_additional_outcomes : Z;
  g_total_cost : R;
  g_total_mitigation_savings : R;
  g_total_adaptation_savings : R;
  g_total_mitigation_prevented : Z;
  g_total_adaptation_prevented : Z
}.

(** [[a - b for a, b in zip(xs, ys)]] *)
Definition zip_sub (xs ys : list R) : list R :=
  map (fun '(a, b) => a - b) (combine xs ys).

(** The script from "Compute preview" to the indicators, as a function of
    the [DEFAULTS] dictionary it reads. *)
Definition compute_preview (D : Defaults) : Result Globals :=
  sel <- calculate_additional_outcomes_and_costs
           (d_outcome D) (d_rcp_scenario D) (d_population_growth_curve D)
           (d_pregnancy_growth_curve D) (d_time_period D)
           (d_current_population D) (d_initial_pregnancy_rate D)
           (d_adaptation_effectiveness D) ;;
  let '(sy, eff_add_outcomes, costs, add_outcomes, eff_low, eff_up,
        cost_low, cost_up) := sel in
  worst <- calculate_additional_outcomes_and_costs
             (d_outcome D) "RCP 8.5" (d_population_growth_curve D)
             (d_pregnancy_growth_curve D) (d_time_period D)
             (d_current_population D) (d_initial_pregnancy_rate D) 0 ;;
  let '(_, worst_eff_add, worst_costs, worst_add, _, _, _, _) := worst in
  zero <- calculate_additional_outcomes_and_costs
            (d_outcome D) (d_rcp_scenario D) (d_population_growth_curve D)
            (d_pregnancy_growth_curve D) (d_time_period D)
            (d_current_population D) (d_initial_pregnancy_rate D) 0 ;;
  let '(_, zero_adapt_outcomes, zero_adapt_costs, _, _, _, _, _) := zero in
  let mitigation_savings := zip_sub worst_costs costs in
  let adaptation_savings := zip_sub zero_adapt_costs costs in
  let mitigation_prevented := zip_sub worst_add eff_add_outcomes in
  let adaptation_prevented := zip_sub zero_adapt_outcomes eff_add_outcomes in
  odds_ratio <- (p <- getitem mnch_outcomes (d_outcome D) ;;
                 Ok (odds_ratio p)) ;;
  current_rate <- (p <- getitem mnch_outcomes (d_outcome D) ;;
                   Ok (current_rate p)) ;;
  let attrib_frac := calculate_attributable_fraction odds_ratio in
  let total_additional_outcomes := round (sum eff_add_outcomes) in
  let _total_cost := round_ndigits (sum costs) 2 in
  let _total_mitigation_savings := round_ndigits (sum mitigation_savings) 2 in
  let _total_adaptation_savings := round_ndigits (sum adaptation_savings) 2 in
  let _total_mitigation_prevented := round (sum mitigation_prevented) in
  let _total_adaptation_prevented := round (sum adaptation_prevented) in
  Ok (mkGlobals sy eff_add_outcomes costs add_outcomes eff_low eff_up
        cost_low cost_up worst_eff_add worst_costs worst_add
        zero_adapt_outcomes zero_adapt_costs mitigation_savings
        adaptation_savings mitigation_prevented adaptation_prevented
        odds_ratio current_rate attrib_frac total_additional_outcomes
        _total_cost _total_mitigation_savings _total_adaptation_savings
        _total_mitigation_prevented _total_adaptation_prevented).

(** ** Figure data (module level of the script) *)

(** [l[i]]: a negative index counts from the end; an index out of range
    raises [IndexError], here [None]. *)
Definition list_getitem {A : Type} (l : list A) (i : Z) : option A :=
  let n := Z.of_nat (length l) in
  let j := if (i <? 0)%Z then (i + n)%Z else i in
  if ((j <? 0)%Z || (n <=? j)%Z)%bool then None
  else nth_error l (Z.to_nat j).

(** The two years every figure title and the page header interpolate,
    [sy[0]] and [sy[-1]]. *)
Definition title_years (sy : list Z) : option (Z * Z) :=
  match list_getitem sy 0 with
  | Some first =>
      match list_getitem sy (-1) with
      | Some last => Some (first, last)
      | None => None
      end
  | None => None
  end.

(** The data of one [go.Scatter] trace. *)
Record Trace : Type := mkTrace {
  trace_x : list Z;
  trace_y : list R
}.

(** A filled band, [x = sy + sy[::-1]] and [y = upper + lower[::-1]]. *)
Definition band (sy : list Z) (upper lower : list R) : Trace :=
  mkTrace (sy ++ rev sy) (upper ++ rev lower).

(** The series plotted on the second axis of the outcomes figure. *)
Definition temp_series (D : Defaults) : Result (list R) :=
  t <- getitem rcp_scenarios (d_rcp_scenario D) ;;
  Ok (calculate_temperature_increase_per_year
        t (fst (d_time_period D)) (snd (d_time_period D))).

(** The traces of the four figures, in the order they are added. *)
Definition fig_outcomes_traces (G : Globals) (temps : list R) : list Trace :=
  [ mkTrace (g_sy G) (g_eff_add_outcomes G);
    band (g_sy G) (g_eff_up G) (g_eff_low G);
    mkTrace (g_sy G) temps ].

Definition fig_prevent_traces (G : Globals) : list Trace :=
  [ mkTrace (g_sy G) (g_worst_add G);
    mkTrace (g_sy G) (g_eff_add_outcomes G);
    band (g_sy G) (g_worst_add G) (g_eff_add_outcomes G);
    band (g_sy G) (g_zero_adapt_outcomes G) (g_eff_add_outcomes G) ].

Definition fig_costs_traces (G : Globals) : list Trace :=
  [ mkTrace (g_sy G) (g_costs G);
    band (g_sy G) (g_cost_up G) (g_cost_low G) ].

Definition fig_savings_traces (G : Globals) : list Trace :=
  [ mkTrace (g_sy G) (g_worst_costs G);
    mkTrace (g_sy G) (g_costs G);
    band (g_sy G) (g_worst_costs G) (g_costs G);
    band (g_sy G) (g_zero_adapt_costs G) (g_costs G) ].

(** * Vocabulary of the statements *)

(** ** Closed forms of the series, indexed by the offset from the first year *)

Section ClosedForms.

Variable p : OutcomeProfile.
Variables temp2100 pop_rate preg_rate : R.
Variables start_year end_year : Z.
Variables current_population initial_pregnancy_rate : R.
Variable adaptation_effectiveness : R.

Definition span : nat := Z.to_nat (end_year - start_year + 1).

Definition year_at (i : nat) : Z := (start_year + Z.of_nat i)%Z.

Definition population_at (i : nat) : R :=
  current_population * powerRZ (1 + pop_rate) (0 + Z.of_nat i).

Definition pregnancies_at (i : nat) : R :=
  population_at i * (initial_pregnancy_rate * (1 + preg_rate)).

Definition baseline_at (i : nat) : R := pregnancies_at i * current_rate p.

Definition temperature_at (i : nat) : R :=
  temp2100 / IZR (2100 - 2024) * IZR (year_at i - 2024).

Definition projected_rate_at (i : nat) : R :=
  current_rate p * Rpower (odds_ratio p) (temperature_at i).

Definition projected_at (i : nat) : R :=
  projected_rate_at i * pregnancies_at i.

Definition additional_at (i : nat) : R := projected_at i - baseline_at i.

Definition effective_at (i : nat) : R :=
  additional_at i * (1 - adaptation_effectiveness / 100).

Definition effective_lower_at (i : nat) : R :=
  additional_at i * (1 - adaptation_effectiveness / 100) * ci_lower p
  / odds_ratio p.

Definition effective_upper_at (i : nat) : R :=
  additional_at i * (1 - adaptation_effectiveness / 100) * ci_upper p
  / odds_ratio p.

(** What the body of the projection leaves in its local variables. *)
Definition locals_closed_form (l : Locals) : Prop :=
  l_odds_ratio l = odds_ratio p /\
  l_ci_lower l = ci_lower p /\
  l_ci_upper l = ci_upper p /\
  l_current_rate l = current_rate p /\
  l_cost_per_case l = cost_per_case p /\
  l_temp_increase_2100 l = temp2100 /\
  l_population_growth_rate l = pop_rate /\
  l_pregnancy_growth_rate l = preg_rate /\
  l_num_years l = (end_year - start_year + 1)%Z /\
  l_selected_years l = map year_at (seq 0 span) /\
  l_population_growth_selected l = map population_at (seq 0 span) /\
  l_pregnancies l = map pregnancies_at (seq 0 span) /\
  l_baseline_outcomes l = map baseline_at (seq 0 span) /\
  l_temperature_increase_per_year l = map temperature_at (seq 0 span) /\
  l_projected_rates l = map projected_rate_at (seq 0 span) /\
  l_projected_outcomes l = map projected_at (seq 0 span) /\
  l_additional_outcomes l = map additional_at (seq 0 span) /\
  l_effective_additional_outcomes l = map effective_at (seq 0 span) /\
  l_effective_additional_outcomes_lower l
    = map effective_lower_at (seq 0 span) /\
  l_effective_additional_outcomes_upper l
    = map effective_upper_at (seq 0 span) /\
  l_costs l = map (fun i => effective_at i * cost_per_case p) (seq 0 span) /\
  l_costs_lower l
    = map (fun i => effective_lower_at i * cost_per_case p) (seq 0 span) /\
  l_costs_upper l
    = map (fun i => effective_upper_at i * cost_per_case p) (seq 0 span).

End ClosedForms.

(** A request names a row of each of the four tables. *)
Definition known_names (outcome rcp pop_curve preg_curve : string)
    (p : OutcomeProfile) (t g h : R) : Prop :=
  get mnch_outcomes outcome = Some p /\
  get rcp_scenarios rcp = Some t /\
  get population_growth_rates pop_curve = Some g /\
  get pregnancy_growth_rates preg_curve = Some h.

(** The 8-tuple the function returns from its locals. *)
Definition returned (l : Locals) : Projection :=
  (l_selected_years l, l_effective_additional_outcomes l, l_costs l,
   l_additional_outcomes l, l_effective_additional_outcomes_lower l,
   l_effective_additional_outcomes_upper l, l_costs_lower l,
   l_costs_upper l).

(** The globals the script binds, from the locals of its three runs. *)
Definition globals_of (p : OutcomeProfile) (sel worst zero : Locals)
    : Globals :=
  let mitigation_savings := zip_sub (l_costs worst) (l_costs sel) in
  let adaptation_savings := zip_sub (l_costs zero) (l_costs sel) in
  let mitigation_prevented :=
    zip_sub (l_additional_outcomes worst)
            (l_effective_additional_outcomes sel) in
  let adaptation_prevented :=
    zip_sub (l_effective_additional_outcomes zero)
            (l_effective_additional_outcomes sel) in
  mkGlobals
    (l_selected_years sel) (l_effective_additional_outcomes sel)
    (l_costs sel) (l_additional_outcomes sel)
    (l_effective_additional_outcomes_lower sel)
    (l_effective_additional_outcomes_upper sel)
    (l_costs_lower sel) (l_costs_upper sel)
    (l_effective_additional_outcomes worst) (l_costs worst)
    (l_additional_outcomes worst)
    (l_effective_additional_outcomes zero) (l_costs zero)
    mitigation_savings adaptation_savings
    mitigation_prevented adaptation_prevented
    (odds_ratio p) (current_rate p)
    (calculate_attributable_fraction (odds_ratio p))
    (round (sum (l_effective_additional_outcomes sel)))
    (round_ndigits (sum (l_costs sel)) 2)
    (round_ndigits (sum mitigation_savings) 2)
    (round_ndigits (sum adaptation_savings) 2)
    (round (sum mitigation_prevented))
    (round (sum adaptation_prevented)).

(** The row of the default outcome. *)
Definition preterm_birth : OutcomeProfile := mkOutcome 1.04 0.1 32000 1.03 1.06.


(** * Properties *)

(** ** Lists, ranges and lookups *)

Lemma combine_map_same {A B C : Type} (f : A -> B) (g : A -> C) (l : list A) :
  combine (map f l) (map g l) = map (fun x => (f x, g x)) l.
Proof.
  induction l as [| x l IH]; simpl; [reflexivity | now rewrite IH].
Qed.

Lemma range_length (lo hi : Z) : length (range lo hi) = Z.to_nat (hi - lo).
Proof. unfold range. now rewrite length_map, length_seq. Qed.

Lemma range_nth_error (lo hi : Z) (i : nat) :
  (i < Z.to_nat (hi - lo))%nat ->
  nth_error (range lo hi) i = Some (lo + Z.of_nat i)%Z.
Proof.
  intros Hi. unfold range.
  rewrite nth_error_map, nth_error_seq.
  apply Nat.ltb_lt in Hi. now rewrite Hi.
Qed.

Lemma range_empty (lo hi : Z) : (hi <= lo)%Z -> range lo hi = [].
Proof.
  intros H. unfold range.
  replace (Z.to_nat (hi - lo)) with 0%nat by lia. reflexivity.
Qed.

Lemma map_seq_nth_error {A : Type} (f : nat -> A) (n i : nat) :
  (i < n)%nat -> nth_error (map f (seq 0 n)) i = Some (f i).
Proof.
  intros Hi. rewrite nth_error_map, nth_error_seq.
  apply Nat.ltb_lt in Hi. now rewrite Hi.
Qed.

Lemma getitem_Ok {V : Type} (d : Dict V) (k : string) (v : V) :
  getitem d k = Ok v <-> get d k = Some v.
Proof.
  unfold getitem. destruct (get d k); split; intros H; congruence.
Qed.

Lemma getitem_Err {V : Type} (d : Dict V) (k : string) (e : PyError) :
  getitem d k = Err e <-> get d k = None /\ e = KeyError k.
Proof.
  unfold getitem. destruct (get d k); split.
  - discriminate.
  - intros [H _]. discriminate.
  - intros H. injection H as <-. now split.
  - intros [_ ->]. reflexivity.
Qed.

Lemma projection_locals_closed_form
    (outcome rcp pop_curve preg_curve : string) (s e : Z) (cp ipr a : R)
    (p : OutcomeProfile) (t g h : R) :
  get mnch_outcomes outcome = Some p ->
  get rcp_scenarios rcp = Some t ->
  get population_growth_rates pop_curve = Some g ->
  get pregnancy_growth_rates preg_curve = Some h ->
  exists l,
    projection_locals outcome rcp pop_curve preg_curve (s, e) cp ipr a = Ok l
    /\ locals_closed_form p t g h s e cp ipr a l.
Proof.
  intros Hp Ht Hg Hh.
  unfold projection_locals, getitem. rewrite Hp, Ht, Hg, Hh. cbn [bind].
  eexists. split; [reflexivity |].
  unfold locals_closed_form; cbn [l_odds_ratio l_ci_lower l_ci_upper
    l_current_rate l_cost_per_case l_temp_increase_2100
    l_population_growth_rate l_pregnancy_growth_rate l_num_years
    l_selected_years l_population_growth_selected l_pregnancies
    l_baseline_outcomes l_temperature_increase_per_year l_projected_rates
    l_projected_outcomes l_additional_outcomes
    l_effective_additional_outcomes l_effective_additional_outcomes_lower
    l_effective_additional_outcomes_upper l_costs l_costs_lower
    l_costs_upper].
  unfold calculate_pregnancies, calculate_population_growth,
    calculate_temperature_increase_per_year, range.
  replace (Z.to_nat (e - s + 1 - 0)) with (span s e)
    by (unfold span; f_equal; lia).
  replace (Z.to_nat (e + 1 - s)) with (span s e)
    by (unfold span; f_equal; lia).
  rewrite !map_map, !combine_map_same, !map_map, !combine_map_same, !map_map.
  repeat split; reflexivity.
Qed.

Lemma projection_returns
    (outcome rcp pop_curve preg_curve : string) (s e : Z) (cp ipr a : R)
    (p : OutcomeProfile) (t g h : R) :
  known_names outcome rcp pop_curve preg_curve p t g h ->
  exists l,
    projection_locals outcome rcp pop_curve preg_curve (s, e) cp ipr a = Ok l
    /\ locals_closed_form p t g h s e cp ipr a l
    /\ calculate_additional_outcomes_and_costs
         outcome rcp pop_curve preg_curve (s, e) cp ipr a = Ok (returned l).
Proof.
  intros (Hp & Ht & Hg & Hh).
  destruct (projection_locals_closed_form outcome rcp pop_curve preg_curve
              s e cp ipr a p t g h Hp Ht Hg Hh) as (l & Hl & Hcf).
  exists l. split; [assumption | split; [assumption |]].
  unfold calculate_additional_outcomes_and_costs. rewrite Hl. reflexivity.
Qed.

(** A projection called with an unknown name fails, and the error is the
    [KeyError] of an unknown one. *)
Lemma projection_fails
    (outcome rcp pop_curve preg_curve : string) (tp : Z * Z) (cp ipr a : R) :
  get mnch_outcomes outcome = None \/
  get rcp_scenarios rcp = None \/
  get population_growth_rates pop_curve = None \/
  get pregnancy_growth_rates preg_curve = None ->
  exists k,
    projection_locals outcome rcp pop_curve preg_curve tp cp ipr a
      = Err (KeyError k)
    /\ calculate_additional_outcomes_and_costs
         outcome rcp pop_curve preg_curve tp cp ipr a = Err (KeyError k)
    /\ ((k = outcome /\ get mnch_outcomes k = None) \/
        (k = rcp /\ get rcp_scenarios k = None) \/
        (k = pop_curve /\ get population_growth_rates k = None) \/
        (k = preg_curve /\ get pregnancy_growth_rates k = None)).
Proof.
  intros H.
  unfold calculate_additional_outcomes_and_costs, projection_locals, getitem.
  destruct (get mnch_outcomes outcome) as [p |] eqn:Hp; cbn [bind].
  2:{ exists outcome. repeat split; auto. }
  destruct (get rcp_scenarios rcp) as [t |] eqn:Ht; cbn [bind].
  2:{ exists rcp. repeat split; auto. }
  destruct (get population_growth_rates pop_curve) as [g |] eqn:Hg;
    cbn [bind].
  2:{ exists pop_curve. repeat split; auto. }
  destruct (get pregnancy_growth_rates preg_curve) as [h |] eqn:Hh;
    cbn [bind].
  2:{ exists preg_curve. repeat split; auto 6. }
  destruct H as [H | [H | [H | H]]]; discriminate.
Qed.

(** In the model a call either returns or raises [KeyError]. *)
Lemma projection_total
    (outcome rcp pop_curve preg_curve : string) (s e : Z) (cp ipr a : R) :
  (exists p t g h l,
      known_names outcome rcp pop_curve preg_curve p t g h
      /\ projection_locals outcome rcp pop_curve preg_curve (s, e) cp ipr a
         = Ok l
      /\ locals_closed_form p t g h s e cp ipr a l
      /\ calculate_additional_outcomes_and_costs
           outcome rcp pop_curve preg_curve (s, e) cp ipr a = Ok (returned l))
  \/ (exists k,
      calculate_additional_outcomes_and_costs
        outcome rcp pop_curve preg_curve (s, e) cp ipr a = Err (KeyError k)).
Proof.
  destruct (get mnch_outcomes outcome) as [p |] eqn:Hp;
  [destruct (get rcp_scenarios rcp) as [t |] eqn:Ht;
   [destruct (get population_growth_rates pop_curve) as [g |] eqn:Hg;
    [destruct (get pregnancy_growth_rates preg_curve) as [h |] eqn:Hh | ]
   | ] | ].
  1:{ left.
      destruct (projection_returns outcome rcp pop_curve preg_curve s e
                  cp ipr a p t g h) as (l & Hl & Hcf & Hr).
      { repeat split; assumption. }
      exists p, t, g, h, l. unfold known_names. tauto. }
  all: right;
    destruct (projection_fails outcome rcp pop_curve preg_curve (s, e)
                cp ipr a) as (k & _ & Hk & _); [tauto | now exists k].
Qed.

Lemma closed_form_lengths
    (p : OutcomeProfile) (t g h : R) (s e : Z) (cp ipr a : R) (l : Locals) :
  locals_closed_form p t g h s e cp ipr a l ->
  length (l_selected_years l) = span s e /\
  length (l_effective_additional_outcomes l) = span s e /\
  length (l_costs l) = span s e /\
  length (l_additional_outcomes l) = span s e /\
  length (l_effective_additional_outcomes_lower l) = span s e /\
  length (l_effective_additional_outcomes_upper l) = span s e /\
  length (l_costs_lower l) = span s e /\
  length (l_costs_upper l) = span s e.
Proof.
  unfold locals_closed_form.
  intros (_ & _ & _ & _ & _ & _ & _ & _ & _ & Hy & _ & _ & _ & _ & _ & _
          & Hadd & Heff & Hlo & Hup & Hc & Hcl & Hcu).
  rewrite Hy, Hadd, Heff, Hlo, Hup, Hc, Hcl, Hcu.
  rewrite !length_map, !length_seq. repeat split; reflexivity.
Qed.

(** ** The years of a projection *)

(** C8. For a request with known names and [start_year <= end_year], the
    projection returns, and its first series [selected_years] has
    [end_year - start_year + 1] entries, the entry at offset [i] being
    [start_year + i]; so it starts at [start_year], ends at [end_year] and
    ascends in steps of one. *)
Theorem years_contiguous
    (outcome rcp pop_curve preg_curve : string) (s e : Z) (cp ipr a : R)
    (p : OutcomeProfile) (t g h : R) :
  known_names outcome rcp pop_curve preg_curve p t g h ->
  (s <= e)%Z ->
  exists sy eff costs add lo up clo cup,
    calculate_additional_outcomes_and_costs
      outcome rcp pop_curve preg_curve (s, e) cp ipr a
      = Ok (sy, eff, costs, add, lo, up, clo, cup)
    /\ Z.of_nat (length sy) = (e - s + 1)%Z
    /\ (forall i, (i < length sy)%nat ->
          nth_error sy i = Some (s + Z.of_nat i)%Z)
    /\ nth_error sy 0 = Some s
    /\ nth_error sy (length sy - 1) = Some e.
Proof.
  intros Hk Hse.
  destruct (projection_returns outcome rcp pop_curve preg_curve s e cp ipr a
              p t g h Hk) as (l & _ & Hcf & Hr).
  pose proof (closed_form_lengths _ _ _ _ _ _ _ _ _ _ Hcf) as (Hlen & _).
  destruct Hcf as (_ & _ & _ & _ & _ & _ & _ & _ & _ & Hy & _).
  do 8 eexists. split; [exact Hr |].
  assert (Hnth : forall i, (i < length (l_selected_years l))%nat ->
            nth_error (l_selected_years l) i = Some (s + Z.of_nat i)%Z).
  { intros i Hi. rewrite Hlen in Hi. rewrite Hy.
    now rewrite map_seq_nth_error. }
  assert (Hpos : (0 < span s e)%nat) by (unfold span; lia).
  split; [rewrite Hlen; unfold span; lia |].
  split; [exact Hnth |].
  split.
  - rewrite Hnth by lia. f_equal. lia.
  - rewrite Hnth by lia. f_equal. rewrite Hlen. unfold span. lia.
Qed.

Lemma years_contiguous_witness :
  known_names "Preterm Birth" "RCP 2.6" "Medium Growth" "Medium Growth"
              (mkOutcome 1.04 0.1 32000 1.03 1.06) 1.5 0.02 0.02
  /\ (2024 <= 2030)%Z
  /\ exists sy eff costs add lo up clo cup,
       calculate_additional_outcomes_and_costs
         "Preterm Birth" "RCP 2.6" "Medium Growth" "Medium Growth"
         (2024, 2030)%Z 7000000000 0.02 50
         = Ok (sy, eff, costs, add, lo, up, clo, cup)
       /\ Z.of_nat (length sy) = (2030 - 2024 + 1)%Z
       /\ (forall i, (i < length sy)%nat ->
             nth_error sy i = Some (2024 + Z.of_nat i)%Z)
       /\ nth_error sy 0 = Some 2024%Z
       /\ nth_error sy (length sy - 1) = Some 2030%Z.
Proof.
  assert (Hk : known_names "Preterm Birth" "RCP 2.6" "Medium Growth"
                 "Medium Growth" (mkOutcome 1.04 0.1 32000 1.03 1.06)
                 1.5 0.02 0.02)
    by (repeat split; reflexivity).
  assert (Hse : (2024 <= 2030)%Z) by lia.
  split; [exact Hk | split; [exact Hse |]].
  exact (years_contiguous "Preterm Birth" "RCP 2.6" "Medium Growth"
           "Medium Growth" 2024 2030 7000000000 0.02 50
           (mkOutcome 1.04 0.1 32000 1.03 1.06) 1.5 0.02 0.02 Hk Hse).
Defined.

(** ** Series lengths *)

(** C10. Whatever the arguments, a call of the projection either raises
    [KeyError] or returns eight series of one common length, the length of
    the years series. *)
Theorem series_same_length
    (outcome rcp pop_curve preg_curve : string) (tp : Z * Z) (cp ipr a : R) :
  (exists k,
     calculate_additional_outcomes_and_costs
       outcome rcp pop_curve preg_curve tp cp ipr a = Err (KeyError k))
  \/
  (exists sy eff costs add lo up clo cup,
     calculate_additional_outcomes_and_costs
       outcome rcp pop_curve preg_curve tp cp ipr a
       = Ok (sy, eff, costs, add, lo, up, clo, cup)
     /\ length eff = length sy /\ length costs = length sy
     /\ length add = length sy /\ length lo = length sy
     /\ length up = length sy /\ length clo = length sy
     /\ length cup = length sy).
Proof.
  destruct tp as [s e].
  destruct (projection_total outcome rcp pop_curve preg_curve s e cp ipr a)
    as [(p & t & g & h & l & _ & _ & Hcf & Hr) | Herr].
  - right.
    pose proof (closed_form_lengths _ _ _ _ _ _ _ _ _ _ Hcf)
      as (Hy & He & Hc & Ha & Hlo & Hup & Hcl & Hcu).
    do 8 eexists. split; [exact Hr |].
    rewrite Hy, He, Hc, Ha, Hlo, Hup, Hcl, Hcu. repeat split; reflexivity.
  - left. exact Herr.
Qed.

(** ** Year ranges that are empty *)

(** C2, as stated, fails: with the range reversed (2030, 2024) the call
    returns eight empty series and raises nothing. *)
Lemma reversed_range_returns :
  calculate_additional_outcomes_and_costs
    "Preterm Birth" "RCP 2.6" "Medium Growth" "Medium Growth"
    (2030, 2024)%Z 7000000000 0.02 50
  = Ok ([], [], [], [], [], [], [], [])
  /\ forall err,
       calculate_additional_outcomes_and_costs
         "Preterm Birth" "RCP 2.6" "Medium Growth" "Medium Growth"
         (2030, 2024)%Z 7000000000 0.02 50 <> Err err.
Proof.
  assert (H : calculate_additional_outcomes_and_costs
                "Preterm Birth" "RCP 2.6" "Medium Growth" "Medium Growth"
                (2030, 2024)%Z 7000000000 0.02 50
              = Ok ([], [], [], [], [], [], [], [])) by reflexivity.
  split; [exact H |]. intros err. rewrite H. discriminate.
Qed.

(** C2 (as the code has it). There is no range check: for a request with
    known names and [end_year < start_year] the projection returns, and all
    eight series of the result are empty. *)
Theorem empty_range_returns_empty_series
    (outcome rcp pop_curve preg_curve : string) (s e : Z) (cp ipr a : R)
    (p : OutcomeProfile) (t g h : R) :
  known_names outcome rcp pop_curve preg_curve p t g h ->
  (e < s)%Z ->
  calculate_additional_outcomes_and_costs
    outcome rcp pop_curve preg_curve (s, e) cp ipr a
  = Ok ([], [], [], [], [], [], [], []).
Proof.
  intros Hk Hes.
  destruct (projection_returns outcome rcp pop_curve preg_curve s e cp ipr a
              p t g h Hk) as (l & _ & Hcf & Hr).
  rewrite Hr. unfold returned.
  destruct Hcf as (_ & _ & _ & _ & _ & _ & _ & _ & _ & Hy & _ & _ & _ & _ & _
                   & _ & Hadd & Heff & Hlo & Hup & Hc & Hcl & Hcu).
  rewrite Hy, Hadd, Heff, Hlo, Hup, Hc, Hcl, Hcu.
  replace (span s e) with 0%nat by (unfold span; lia).
  reflexivity.
Qed.

Lemma empty_range_returns_empty_series_witness :
  known_names "Infections" "RCP 8.5" "Low Growth" "High Reduction"
              (mkOutcome 1.29 0.02 800 1.05 1.58) 4.3 0.01 (-0.15)
  /\ (2024 < 2025)%Z
  /\ calculate_additional_outcomes_and_costs
       "Infections" "RCP 8.5" "Low Growth" "High Reduction"
       (2025, 2024)%Z 1000 0.5 10
     = Ok ([], [], [], [], [], [], [], []).
Proof.
  assert (Hk : known_names "Infections" "RCP 8.5" "Low Growth"
                 "High Reduction" (mkOutcome 1.29 0.02 800 1.05 1.58)
                 4.3 0.01 (-0.15))
    by (repeat split; reflexivity).
  assert (Hes : (2024 < 2025)%Z) by lia.
  split; [exact Hk | split; [exact Hes |]].
  exact (empty_range_returns_empty_series "Infections" "RCP 8.5" "Low Growth"
           "High Reduction" 2025 2024 1000 0.5 10
           (mkOutcome 1.29 0.02 800 1.05 1.58) 4.3 0.01 (-0.15) Hk Hes).
Defined.

(** ** Unknown names *)

(** C5. A lookup of a name that is not a key of its table raises
    [KeyError] for that name, for each of the four tables; and a projection
    called with such a name raises the [KeyError] of an unknown name and
    returns nothing, and so does the preview computation built on it. *)
Theorem unknown_name_raises
    (outcome rcp pop_curve preg_curve : string) (tp : Z * Z) (cp ipr a : R) :
  get mnch_outcomes outcome = None \/
  get rcp_scenarios rcp = None \/
  get population_growth_rates pop_curve = None \/
  get pregnancy_growth_rates preg_curve = None ->
  (get mnch_outcomes outcome = None ->
   getitem mnch_outcomes outcome = Err (KeyError outcome)) /\
  (get rcp_scenarios rcp = None ->
   getitem rcp_scenarios rcp = Err (KeyError rcp)) /\
  (get population_growth_rates pop_curve = None ->
   getitem population_growth_rates pop_curve = Err (KeyError pop_curve)) /\
  (get pregnancy_growth_rates preg_curve = None ->
   getitem pregnancy_growth_rates preg_curve = Err (KeyError preg_curve)) /\
  exists k,
    calculate_additional_outcomes_and_costs
      outcome rcp pop_curve preg_curve tp cp ipr a = Err (KeyError k)
    /\ (forall res,
          calculate_additional_outcomes_and_costs
            outcome rcp pop_curve preg_curve tp cp ipr a <> Ok res)
    /\ compute_preview
         (mkDefaults outcome rcp pop_curve preg_curve tp cp ipr a)
       = Err (KeyError k)
    /\ ((k = outcome /\ get mnch_outcomes k = None) \/
        (k = rcp /\ get rcp_scenarios k = None) \/
        (k = pop_curve /\ get population_growth_rates k = None) \/
        (k = preg_curve /\ get pregnancy_growth_rates k = None)).
Proof.
  intros H.
  repeat (split; [intros Hn; apply getitem_Err; now split |]).
  destruct (projection_fails outcome rcp pop_curve preg_curve tp cp ipr a H)
    as (k & _ & Hk & Hwhich).
  exists k. split; [exact Hk |]. split.
  - intros res. rewrite Hk. discriminate.
  - split; [| exact Hwhich].
    unfold compute_preview.
    cbn [d_outcome d_rcp_scenario d_population_growth_curve
         d_pregnancy_growth_curve d_time_period d_current_population
         d_initial_pregnancy_rate d_adaptation_effectiveness].
    rewrite Hk. reflexivity.
Qed.

Lemma unknown_name_raises_witness :
  (get mnch_outcomes "Not A Real Outcome" = None \/
   get rcp_scenarios "RCP 2.6" = None \/
   get population_growth_rates "Medium Growth" = None \/
   get pregnancy_growth_rates "Medium Growth" = None)
  /\ exists k,
       calculate_additional_outcomes_and_costs
         "Not A Real Outcome" "RCP 2.6" "Medium Growth" "Medium Growth"
         (2024, 2030)%Z 7000000000 0.02 50 = Err (KeyError k)
       /\ k = "Not A Real Outcome"%string.
Proof.
  assert (H : get mnch_outcomes "Not A Real Outcome" = None \/
              get rcp_scenarios "RCP 2.6" = None \/
              get population_growth_rates "Medium Growth" = None \/
              get pregnancy_growth_rates "Medium Growth" = None)
    by (left; reflexivity).
  split; [exact H |].
  destruct (unknown_name_raises "Not A Real Outcome" "RCP 2.6"
              "Medium Growth" "Medium Growth" (2024, 2030)%Z
              7000000000 0.02 50 H)
    as (_ & _ & _ & _ & k & Hk & _ & _ & Hwhich).
  exists k. split; [exact Hk |].
  destruct Hwhich as [[Hw _] | [[Hw Hn] | [[Hw Hn] | [Hw Hn]]]].
  - exact Hw.
  - subst k. discriminate Hn.
  - subst k. discriminate Hn.
  - subst k. discriminate Hn.
Defined.

(** ** Population, pregnancies and temperature *)

Ltac closed_form_fields H :=
  destruct H as (Hcf_or & Hcf_cil & Hcf_ciu & Hcf_cr & Hcf_cpc & Hcf_t
                 & Hcf_g & Hcf_h & Hcf_n & Hcf_years & Hcf_pop & Hcf_preg
                 & Hcf_base & Hcf_temp & Hcf_rate & Hcf_proj & Hcf_add
                 & Hcf_eff & Hcf_efflo & Hcf_effup & Hcf_costs & Hcf_costlo
                 & Hcf_costup).

Lemma rcp_scenarios_positive (rcp : string) (t : R) :
  get rcp_scenarios rcp = Some t -> 0 < t.
Proof.
  unfold rcp_scenarios, get.
  repeat (match goal with
          | |- context [String.eqb ?k rcp] =>
              destruct (String.eqb k rcp); [intros [= <-]; lra |]
          end).
  discriminate.
Qed.

(** C3. In a projection run the population series compounds,
    [population[i] = current_population * (1 + population_growth_rate)^i],
    while the pregnancies series multiplies each population entry by the one
    rate [initial_pregnancy_rate * (1 + pregnancy_growth_rate)], the same
    factor at every index. *)
Theorem pregnancies_flat_rate
    (outcome rcp pop_curve preg_curve : string) (s e : Z) (cp ipr a : R)
    (p : OutcomeProfile) (t g h : R) :
  known_names outcome rcp pop_curve preg_curve p t g h ->
  exists l,
    projection_locals outcome rcp pop_curve preg_curve (s, e) cp ipr a = Ok l
    /\ length (l_population_growth_selected l) = Z.to_nat (e - s + 1)
    /\ length (l_pregnancies l) = Z.to_nat (e - s + 1)
    /\ forall i, (i < Z.to_nat (e - s + 1))%nat ->
         exists pop,
           nth_error (l_population_growth_selected l) i = Some pop
           /\ pop = cp * (1 + g) ^ i
           /\ nth_error (l_pregnancies l) i = Some (pop * (ipr * (1 + h))).
Proof.
  intros Hk.
  destruct (projection_returns outcome rcp pop_curve preg_curve s e cp ipr a
              p t g h Hk) as (l & Hl & Hcf & _).
  closed_form_fields Hcf.
  exists l. split; [exact Hl |].
  rewrite Hcf_pop, Hcf_preg, !length_map, !length_seq.
  split; [reflexivity | split; [reflexivity |]].
  intros i Hi. exists (population_at g cp i).
  rewrite !map_seq_nth_error by exact Hi.
  split; [reflexivity | split; [| reflexivity]].
  unfold population_at. rewrite Z.add_0_l, <- pow_powerRZ. reflexivity.
Qed.

Lemma pregnancies_flat_rate_witness :
  known_names "Preterm Birth" "RCP 2.6" "Medium Growth" "Medium Growth"
              (mkOutcome 1.04 0.1 32000 1.03 1.06) 1.5 0.02 0.02
  /\ exists l,
       projection_locals "Preterm Birth" "RCP 2.6" "Medium Growth"
         "Medium Growth" (2024, 2030)%Z 7000000000 0.02 50 = Ok l
       /\ nth_error (l_population_growth_selected l) 2
          = Some (7000000000 * (1 + 0.02) ^ 2)
       /\ nth_error (l_pregnancies l) 2
          = Some (7000000000 * (1 + 0.02) ^ 2 * (0.02 * (1 + 0.02))).
Proof.
  assert (Hk : known_names "Preterm Birth" "RCP 2.6" "Medium Growth"
                 "Medium Growth" (mkOutcome 1.04 0.1 32000 1.03 1.06)
                 1.5 0.02 0.02)
    by (repeat split; reflexivity).
  split; [exact Hk |].
  destruct (pregnancies_flat_rate "Preterm Birth" "RCP 2.6" "Medium Growth"
              "Medium Growth" 2024 2030 7000000000 0.02 50
              (mkOutcome 1.04 0.1 32000 1.03 1.06) 1.5 0.02 0.02 Hk)
    as (l & Hl & _ & _ & Hnth).
  exists l. split; [exact Hl |].
  destruct (Hnth 2%nat) as (pop & Hpop & Heq & Hpreg).
  { vm_compute. lia. }
  subst pop. split; assumption.
Defined.

(** C4. In a projection run the temperature increase of every year [y] of
    the range is [temp2100 / (2100 - 2024) * (y - 2024)], whatever the start
    year; it is negative for a year before 2024 and exactly 0 for 2024. *)
Theorem temperature_linear_ramp
    (outcome rcp pop_curve preg_curve : string) (s e : Z) (cp ipr a : R)
    (p : OutcomeProfile) (t g h : R) :
  known_names outcome rcp pop_curve preg_curve p t g h ->
  exists l,
    projection_locals outcome rcp pop_curve preg_curve (s, e) cp ipr a = Ok l
    /\ length (l_temperature_increase_per_year l) = Z.to_nat (e - s + 1)
    /\ forall y, (s <= y <= e)%Z ->
         exists v,
           nth_error (l_temperature_increase_per_year l) (Z.to_nat (y - s))
             = Some v
           /\ v = t / (2100 - 2024) * (IZR y - 2024)
           /\ ((y < 2024)%Z -> v < 0)
           /\ (y = 2024%Z -> v = 0).
Proof.
  intros Hk.
  destruct (projection_returns outcome rcp pop_curve preg_curve s e cp ipr a
              p t g h Hk) as (l & Hl & Hcf & _).
  closed_form_fields Hcf.
  exists l. split; [exact Hl |].
  rewrite Hcf_temp, length_map, length_seq.
  split; [reflexivity |].
  intros y Hy. exists (temperature_at t s (Z.to_nat (y - s))).
  rewrite map_seq_nth_error by (unfold span; lia).
  split; [reflexivity |].
  unfold temperature_at, year_at.
  replace (s + Z.of_nat (Z.to_nat (y - s)) - 2024)%Z with (y - 2024)%Z by lia.
  rewrite !minus_IZR.
  destruct Hk as (_ & Ht & _).
  apply rcp_scenarios_positive in Ht.
  split; [reflexivity |]. split.
  - intros Hlt. apply IZR_lt in Hlt.
    assert (Hq : 0 < t / (2100 - 2024)) by (apply Rdiv_lt_0_compat; lra).
    replace (t / (2100 - 2024) * (IZR y - 2024))
      with (- (t / (2100 - 2024) * (2024 - IZR y))) by ring.
    apply Ropp_lt_gt_0_contravar, Rmult_lt_0_compat; lra.
  - intros ->. ring.
Qed.

Lemma temperature_linear_ramp_witness :
  known_names "Preterm Birth" "RCP 2.6" "Medium Growth" "Medium Growth"
              (mkOutcome 1.04 0.1 32000 1.03 1.06) 1.5 0.02 0.02
  /\ exists l v0 v4,
       projection_locals "Preterm Birth" "RCP 2.6" "Medium Growth"
         "Medium Growth" (2020, 2030)%Z 7000000000 0.02 50 = Ok l
       /\ nth_error (l_temperature_increase_per_year l) 0 = Some v0
       /\ v0 = 1.5 / (2100 - 2024) * (2020 - 2024) /\ v0 < 0
       /\ nth_error (l_temperature_increase_per_year l) 4 = Some v4
       /\ v4 = 0.
Proof.
  assert (Hk : known_names "Preterm Birth" "RCP 2.6" "Medium Growth"
                 "Medium Growth" (mkOutcome 1.04 0.1 32000 1.03 1.06)
                 1.5 0.02 0.02)
    by (repeat split; reflexivity).
  split; [exact Hk |].
  destruct (temperature_linear_ramp "Preterm Birth" "RCP 2.6" "Medium Growth"
              "Medium Growth" 2020 2030 7000000000 0.02 50
              (mkOutcome 1.04 0.1 32000 1.03 1.06) 1.5 0.02 0.02 Hk)
    as (l & Hl & _ & Hramp).
  destruct (Hramp 2020%Z) as (v0 & Hn0 & Hv0 & Hneg & _); [lia |].
  destruct (Hramp 2024%Z) as (v4 & Hn4 & _ & _ & Hzero); [lia |].
  exists l, v0, v4.
  split; [exact Hl |]. split; [exact Hn0 |]. split; [exact Hv0 |].
  split; [apply Hneg; lia |]. split; [exact Hn4 |]. apply Hzero. reflexivity.
Defined.

(** ** Adaptation and confidence bounds *)

Lemma map_seq_nth_error_inv {A : Type} (f : nat -> A) (n i : nat) (x : A) :
  nth_error (map f (seq 0 n)) i = Some x -> (i < n)%nat /\ x = f i.
Proof.
  intros H.
  assert (Hi : (i < length (map f (seq 0 n)))%nat)
    by (apply nth_error_Some; congruence).
  rewrite length_map, length_seq in Hi.
  split; [exact Hi |].
  rewrite map_seq_nth_error in H by exact Hi. congruence.
Qed.

Lemma Rpower_gt_1 (x y : R) : 1 < x -> 0 < y -> 1 < Rpower x y.
Proof.
  intros Hx Hy.
  rewrite <- (Rpower_O x) by lra.
  apply Rpower_lt; assumption.
Qed.

Lemma pregnancies_at_pos (g h cp ipr : R) (i : nat) :
  0 < cp -> 0 < 1 + g -> 0 < ipr * (1 + h) -> 0 < pregnancies_at g h cp ipr i.
Proof.
  intros Hcp Hg Hr. unfold pregnancies_at, population_at.
  rewrite Z.add_0_l, <- pow_powerRZ.
  apply Rmult_lt_0_compat; [apply Rmult_lt_0_compat |]; try assumption.
  apply pow_lt. assumption.
Qed.

(** After 2024 a harmful outcome ([odds_ratio > 1]) has a positive excess. *)
Lemma additional_at_pos
    (p : OutcomeProfile) (t g h : R) (s : Z) (cp ipr : R) (i : nat) :
  1 < odds_ratio p -> 0 < current_rate p -> 0 < t ->
  0 < cp -> 0 < 1 + g -> 0 < ipr * (1 + h) ->
  (2024 < s + Z.of_nat i)%Z ->
  0 < additional_at p t g h s cp ipr i.
Proof.
  intros Hor Hcr Ht Hcp Hg Hr Hy.
  unfold additional_at, projected_at, baseline_at, projected_rate_at.
  pose proof (pregnancies_at_pos g h cp ipr i Hcp Hg Hr) as Hpreg.
  assert (Htemp : 0 < temperature_at t s i).
  { unfold temperature_at, year_at.
    apply Rmult_lt_0_compat.
    - apply Rdiv_lt_0_compat; [assumption | apply IZR_lt; lia].
    - apply IZR_lt. lia. }
  pose proof (Rpower_gt_1 (odds_ratio p) _ Hor Htemp) as Hpow.
  set (w := Rpower (odds_ratio p) (temperature_at t s i)) in *.
  set (q := pregnancies_at g h cp ipr i) in *.
  replace (current_rate p * w * q - q * current_rate p)
    with (current_rate p * q * (w - 1)) by ring.
  apply Rmult_lt_0_compat; [apply Rmult_lt_0_compat |]; lra.
Qed.

(** In 2024 the excess is zero. *)
Lemma additional_at_2024
    (p : OutcomeProfile) (t g h : R) (s : Z) (cp ipr : R) (i : nat) :
  0 < odds_ratio p -> (s + Z.of_nat i = 2024)%Z ->
  additional_at p t g h s cp ipr i = 0.
Proof.
  intros Hor Hy.
  unfold additional_at, projected_at, baseline_at, projected_rate_at,
    temperature_at, year_at.
  rewrite Hy, Z.sub_diag, Rmult_0_r, Rpower_O by assumption. ring.
Qed.

(** C6. With every other argument fixed, the magnitude of each entry of the
    effective series does not grow when the adaptation effectiveness grows
    within [0, 100] (the uncapped series staying the same); at 100 every
    entry is 0, and at 0 the effective series is the uncapped series. *)
Theorem adaptation_monotone
    (outcome rcp pop_curve preg_curve : string) (s e : Z) (cp ipr : R)
    (p : OutcomeProfile) (t g h : R) :
  known_names outcome rcp pop_curve preg_curve p t g h ->
  (forall a1 a2, 0 <= a1 -> a1 <= a2 -> a2 <= 100 ->
     exists l1 l2,
       projection_locals outcome rcp pop_curve preg_curve (s, e) cp ipr a1
         = Ok l1
       /\ projection_locals outcome rcp pop_curve preg_curve (s, e) cp ipr a2
          = Ok l2
       /\ l_additional_outcomes l1 = l_additional_outcomes l2
       /\ forall i, (i < Z.to_nat (e - s + 1))%nat ->
            exists x1 x2,
              nth_error (l_effective_additional_outcomes l1) i = Some x1
              /\ nth_error (l_effective_additional_outcomes l2) i = Some x2
              /\ Rabs x2 <= Rabs x1)
  /\ (exists l,
        projection_locals outcome rcp pop_curve preg_curve (s, e) cp ipr 100
          = Ok l
        /\ length (l_effective_additional_outcomes l) = Z.to_nat (e - s + 1)
        /\ forall i, (i < Z.to_nat (e - s + 1))%nat ->
             nth_error (l_effective_additional_outcomes l) i = Some 0)
  /\ (exists l,
        projection_locals outcome rcp pop_curve preg_curve (s, e) cp ipr 0
          = Ok l
        /\ l_effective_additional_outcomes l = l_additional_outcomes l).
Proof.
  intros Hk. split; [| split].
  - intros a1 a2 H0 H12 H100.
    destruct (projection_returns outcome rcp pop_curve preg_curve s e cp ipr
                a1 p t g h Hk) as (l1 & Hl1 & Hcf1 & _).
    destruct (projection_returns outcome rcp pop_curve preg_curve s e cp ipr
                a2 p t g h Hk) as (l2 & Hl2 & Hcf2 & _).
    exists l1, l2. split; [exact Hl1 | split; [exact Hl2 |]].
    closed_form_fields Hcf1.
    destruct Hcf2 as (_ & _ & _ & _ & _ & _ & _ & _ & _ & _ & _ & _ & _ & _
                      & _ & _ & Hadd2 & Heff2 & _).
    split; [congruence |].
    intros i Hi.
    exists (effective_at p t g h s cp ipr a1 i),
           (effective_at p t g h s cp ipr a2 i).
    rewrite Hcf_eff, Heff2, !map_seq_nth_error by exact Hi.
    split; [reflexivity | split; [reflexivity |]].
    unfold effective_at. rewrite !Rabs_mult.
    apply Rmult_le_compat_l; [apply Rabs_pos |].
    rewrite !Rabs_right by lra. lra.
  - destruct (projection_returns outcome rcp pop_curve preg_curve s e cp ipr
                100 p t g h Hk) as (l & Hl & Hcf & _).
    exists l. split; [exact Hl |].
    closed_form_fields Hcf.
    rewrite Hcf_eff, length_map, length_seq. split; [reflexivity |].
    intros i Hi. rewrite map_seq_nth_error by exact Hi.
    f_equal. unfold effective_at. field.
  - destruct (projection_returns outcome rcp pop_curve preg_curve s e cp ipr
                0 p t g h Hk) as (l & Hl & Hcf & _).
    exists l. split; [exact Hl |].
    closed_form_fields Hcf.
    rewrite Hcf_eff, Hcf_add. apply map_ext.
    intros i. unfold effective_at. field.
Qed.

Lemma adaptation_monotone_witness :
  known_names "Preterm Birth" "RCP 2.6" "Medium Growth" "Medium Growth"
              (mkOutcome 1.04 0.1 32000 1.03 1.06) 1.5 0.02 0.02
  /\ exists l1 l2 x1 x2,
       projection_locals "Preterm Birth" "RCP 2.6" "Medium Growth"
         "Medium Growth" (2024, 2030)%Z 7000000000 0.02 25 = Ok l1
       /\ projection_locals "Preterm Birth" "RCP 2.6" "Medium Growth"
            "Medium Growth" (2024, 2030)%Z 7000000000 0.02 75 = Ok l2
       /\ nth_error (l_effective_additional_outcomes l1) 1 = Some x1
       /\ nth_error (l_effective_additional_outcomes l2) 1 = Some x2
       /\ Rabs x2 <= Rabs x1.
Proof.
  assert (Hk : known_names "Preterm Birth" "RCP 2.6" "Medium Growth"
                 "Medium Growth" (mkOutcome 1.04 0.1 32000 1.03 1.06)
                 1.5 0.02 0.02)
    by (repeat split; reflexivity).
  split; [exact Hk |].
  destruct (adaptation_monotone "Preterm Birth" "RCP 2.6" "Medium Growth"
              "Medium Growth" 2024 2030 7000000000 0.02
              (mkOutcome 1.04 0.1 32000 1.03 1.06) 1.5 0.02 0.02 Hk)
    as (Hmono & _ & _).
  destruct (Hmono 25 75) as (l1 & l2 & Hl1 & Hl2 & _ & Hnth); try lra.
  destruct (Hnth 1%nat) as (x1 & x2 & H1 & H2 & Hle).
  { vm_compute. lia. }
  exists l1, l2, x1, x2. repeat split; assumption.
Defined.

(** C7. In a projection run whose outcome has
    [ci_lower <= odds_ratio <= ci_upper] and [odds_ratio > 0], every
    non-negative entry [x] of the effective series lies between the entries
    of the lower and upper series at the same index, which are
    [x * ci_lower / odds_ratio] and [x * ci_upper / odds_ratio]. *)
Theorem confidence_bounds_ordered
    (outcome rcp pop_curve preg_curve : string) (s e : Z) (cp ipr a : R)
    (p : OutcomeProfile) (t g h : R) :
  known_names outcome rcp pop_curve preg_curve p t g h ->
  ci_lower p <= odds_ratio p -> odds_ratio p <= ci_upper p ->
  0 < odds_ratio p ->
  exists l,
    projection_locals outcome rcp pop_curve preg_curve (s, e) cp ipr a = Ok l
    /\ forall i x,
         nth_error (l_effective_additional_outcomes l) i = Some x ->
         0 <= x ->
         exists lo up,
           nth_error (l_effective_additional_outcomes_lower l) i = Some lo
           /\ nth_error (l_effective_additional_outcomes_upper l) i = Some up
           /\ lo = x * ci_lower p / odds_ratio p
           /\ up = x * ci_upper p / odds_ratio p
           /\ lo <= x /\ x <= up.
Proof.
  intros Hk Hlo Hup Hor.
  destruct (projection_returns outcome rcp pop_curve preg_curve s e cp ipr a
              p t g h Hk) as (l & Hl & Hcf & _).
  exists l. split; [exact Hl |].
  closed_form_fields Hcf.
  intros i x Hx Hx0.
  rewrite Hcf_eff in Hx. apply map_seq_nth_error_inv in Hx as (Hi & ->).
  exists (effective_lower_at p t g h s cp ipr a i),
         (effective_upper_at p t g h s cp ipr a i).
  rewrite Hcf_efflo, Hcf_effup, !map_seq_nth_error by exact Hi.
  split; [reflexivity | split; [reflexivity |]].
  unfold effective_lower_at, effective_upper_at.
  fold (effective_at p t g h s cp ipr a i).
  set (x := effective_at p t g h s cp ipr a i) in *.
  split; [reflexivity | split; [reflexivity |]].
  assert (Hq : 0 < / odds_ratio p) by (apply Rinv_0_lt_compat; exact Hor).
  assert (H1 : odds_ratio p * / odds_ratio p = 1) by (apply Rinv_r; lra).
  unfold Rdiv. split.
  - replace x with (x * (odds_ratio p * / odds_ratio p)) at 2
      by (rewrite H1; ring).
    rewrite Rmult_assoc.
    apply Rmult_le_compat_l; [exact Hx0 |].
    apply Rmult_le_compat_r; lra.
  - replace x with (x * (odds_ratio p * / odds_ratio p)) at 1
      by (rewrite H1; ring).
    rewrite (Rmult_assoc x (ci_upper p)).
    apply Rmult_le_compat_l; [exact Hx0 |].
    apply Rmult_le_compat_r; lra.
Qed.

Lemma confidence_bounds_ordered_witness :
  known_names "Preterm Birth" "RCP 2.6" "Medium Growth" "Medium Growth"
              (mkOutcome 1.04 0.1 32000 1.03 1.06) 1.5 0.02 0.02
  /\ 1.03 <= 1.04 /\ 1.04 <= 1.06 /\ 0 < 1.04
  /\ exists l x lo up,
       projection_locals "Preterm Birth" "RCP 2.6" "Medium Growth"
         "Medium Growth" (2024, 2030)%Z 7000000000 0.02 50 = Ok l
       /\ nth_error (l_effective_additional_outcomes l) 1 = Some x
       /\ 0 < x
       /\ nth_error (l_effective_additional_outcomes_lower l) 1 = Some lo
       /\ nth_error (l_effective_additional_outcomes_upper l) 1 = Some up
       /\ lo <= x /\ x <= up.
Proof.
  assert (Hk : known_names "Preterm Birth" "RCP 2.6" "Medium Growth"
                 "Medium Growth" (mkOutcome 1.04 0.1 32000 1.03 1.06)
                 1.5 0.02 0.02)
    by (repeat split; reflexivity).
  assert (Hlo : 1.03 <= 1.04) by lra.
  assert (Hup : 1.04 <= 1.06) by lra.
  assert (Hor : 0 < 1.04) by lra.
  split; [exact Hk |]. split; [exact Hlo |]. split; [exact Hup |].
  split; [exact Hor |].
  destruct (confidence_bounds_ordered "Preterm Birth" "RCP 2.6"
              "Medium Growth" "Medium Growth" 2024 2030 7000000000 0.02 50
              (mkOutcome 1.04 0.1 32000 1.03 1.06) 1.5 0.02 0.02
              Hk Hlo Hup Hor) as (l & Hl & Hbound).
  destruct (projection_returns "Preterm Birth" "RCP 2.6" "Medium Growth"
              "Medium Growth" 2024 2030 7000000000 0.02 50
              (mkOutcome 1.04 0.1 32000 1.03 1.06) 1.5 0.02 0.02 Hk)
    as (l' & Hl' & Hcf & _).
  assert (El : l' = l) by congruence. subst l'.
  closed_form_fields Hcf.
  set (x := effective_at (mkOutcome 1.04 0.1 32000 1.03 1.06) 1.5 0.02 0.02
              2024 7000000000 0.02 50 1).
  assert (Hx : nth_error (l_effective_additional_outcomes l) 1 = Some x).
  { rewrite Hcf_eff. apply map_seq_nth_error. vm_compute. lia. }
  assert (Hpos : 0 < x).
  { unfold x, effective_at.
    apply Rmult_lt_0_compat; [| lra].
    apply additional_at_pos; cbn [odds_ratio current_rate]; try lra.
    vm_compute. reflexivity. }
  destruct (Hbound 1%nat x Hx (Rlt_le _ _ Hpos))
    as (lo & up & Hnlo & Hnup & _ & _ & Hle1 & Hle2).
  exists l, x, lo, up. repeat split; assumption.
Defined.

(** ** The comparison runs and the indicators *)

Lemma rcp_8_5 : get rcp_scenarios "RCP 8.5" = Some 4.3.
Proof. reflexivity. Qed.

Lemma compute_preview_returns
    (outcome rcp pop_curve preg_curve : string) (s e : Z) (cp ipr a : R)
    (p : OutcomeProfile) (t g h : R) :
  known_names outcome rcp pop_curve preg_curve p t g h ->
  exists sel worst zero,
    projection_locals outcome rcp pop_curve preg_curve (s, e) cp ipr a
      = Ok sel
    /\ locals_closed_form p t g h s e cp ipr a sel
    /\ projection_locals outcome "RCP 8.5" pop_curve preg_curve (s, e)
         cp ipr 0 = Ok worst
    /\ locals_closed_form p 4.3 g h s e cp ipr 0 worst
    /\ projection_locals outcome rcp pop_curve preg_curve (s, e) cp ipr 0
       = Ok zero
    /\ locals_closed_form p t g h s e cp ipr 0 zero
    /\ compute_preview
         (mkDefaults outcome rcp pop_curve preg_curve (s, e) cp ipr a)
       = Ok (globals_of p sel worst zero).
Proof.
  intros Hk.
  assert (Hk8 : known_names outcome "RCP 8.5" pop_curve preg_curve
                  p 4.3 g h).
  { destruct Hk as (Hp & _ & Hg & Hh).
    repeat split; solve [assumption | exact rcp_8_5]. }
  destruct (projection_returns outcome rcp pop_curve preg_curve s e cp ipr a
              p t g h Hk) as (sel & Hsel & Hcf_sel & Hr_sel).
  destruct (projection_returns outcome "RCP 8.5" pop_curve preg_curve s e
              cp ipr 0 p 4.3 g h Hk8) as (worst & Hworst & Hcf_w & Hr_w).
  destruct (projection_returns outcome rcp pop_curve preg_curve s e cp ipr 0
              p t g h Hk) as (zero & Hzero & Hcf_z & Hr_z).
  exists sel, worst, zero.
  repeat (split; [assumption |]).
  unfold compute_preview.
  cbn [d_outcome d_rcp_scenario d_population_growth_curve
       d_pregnancy_growth_curve d_time_period d_current_population
       d_initial_pregnancy_rate d_adaptation_effectiveness].
  rewrite Hr_sel, Hr_w, Hr_z. unfold returned. cbn [bind].
  destruct Hk as (Hp & _). unfold getitem. rewrite Hp. reflexivity.
Qed.

Lemma zip_sub_maps (f f' : nat -> R) (n : nat) :
  zip_sub (map f (seq 0 n)) (map f' (seq 0 n))
  = map (fun i => f i - f' i) (seq 0 n).
Proof.
  unfold zip_sub. now rewrite combine_map_same, map_map.
Qed.

(** C1, as stated, fails: the subtrahend is not the selected run's uncapped
    series.  At the defaults, year 2025, neither prevented series is the
    difference of the uncapped series. *)
Lemma prevented_not_from_uncapped :
  exists G sel worst zero m ad w z u,
    compute_preview DEFAULTS = Ok G
    /\ projection_locals "Preterm Birth" "RCP 2.6" "Medium Growth"
         "Medium Growth" (2024, 2030)%Z 7000000000 0.02 50 = Ok sel
    /\ projection_locals "Preterm Birth" "RCP 8.5" "Medium Growth"
         "Medium Growth" (2024, 2030)%Z 7000000000 0.02 0 = Ok worst
    /\ projection_locals "Preterm Birth" "RCP 2.6" "Medium Growth"
         "Medium Growth" (2024, 2030)%Z 7000000000 0.02 0 = Ok zero
    /\ nth_error (g_mitigation_prevented G) 1 = Some m
    /\ nth_error (g_adaptation_prevented G) 1 = Some ad
    /\ nth_error (l_additional_outcomes worst) 1 = Some w
    /\ nth_error (l_additional_outcomes zero) 1 = Some z
    /\ nth_error (l_additional_outcomes sel) 1 = Some u
    /\ m <> w - u
    /\ ad <> z - u.
Proof.
  set (P := mkOutcome 1.04 0.1 32000 1.03 1.06).
  destruct (compute_preview_returns "Preterm Birth" "RCP 2.6" "Medium Growth"
              "Medium Growth" 2024 2030 7000000000 0.02 50 P 1.5 0.02 0.02)
    as (sel & worst & zero & Hsel & Hcs & Hworst & Hcw & Hzero & Hcz & HG).
  { repeat split; reflexivity. }
  set (u := additional_at P 1.5 0.02 0.02 2024 7000000000 0.02 1).
  set (w := additional_at P 4.3 0.02 0.02 2024 7000000000 0.02 1).
  assert (Hu : 0 < u).
  { apply additional_at_pos; cbn [odds_ratio current_rate P]; try lra.
    vm_compute. reflexivity. }
  assert (H17 : (1 < span 2024 2030)%nat) by (vm_compute; lia).
  exists (globals_of P sel worst zero), sel, worst, zero,
    (w - u * (1 - 50 / 100)), (u * (1 - 0 / 100) - u * (1 - 50 / 100)),
    w, u, u.
  split; [exact HG |].
  split; [exact Hsel | split; [exact Hworst | split; [exact Hzero |]]].
  cbn [globals_of g_mitigation_prevented g_adaptation_prevented].
  destruct Hcs as (_ & _ & _ & _ & _ & _ & _ & _ & _ & _ & _ & _ & _ & _
                   & _ & _ & Hadd_s & Heff_s & _).
  destruct Hcw as (_ & _ & _ & _ & _ & _ & _ & _ & _ & _ & _ & _ & _ & _
                   & _ & _ & Hadd_w & _).
  destruct Hcz as (_ & _ & _ & _ & _ & _ & _ & _ & _ & _ & _ & _ & _ & _
                   & _ & _ & Hadd_z & Heff_z & _).
  rewrite Hadd_s, Heff_s, Hadd_w, Hadd_z, Heff_z, !zip_sub_maps.
  rewrite !map_seq_nth_error by exact H17.
  repeat (split; [reflexivity |]).
  split; lra.
Qed.

(** C1 (as the code has it). For every year of a comparison run,
    [mitigation_prevented[i]] is the uncapped additional outcomes of the
    worst-case run minus the effective (adaptation-adjusted) outcomes of the
    selected run, and [adaptation_prevented[i]] is the additional outcomes
    of the zero-adaptation run (whose effective series is its uncapped
    series) minus the effective outcomes of the selected run. *)
Theorem prevented_series
    (outcome rcp pop_curve preg_curve : string) (s e : Z) (cp ipr a : R)
    (p : OutcomeProfile) (t g h : R) :
  known_names outcome rcp pop_curve preg_curve p t g h ->
  exists G sel worst zero,
    compute_preview
      (mkDefaults outcome rcp pop_curve preg_curve (s, e) cp ipr a) = Ok G
    /\ projection_locals outcome rcp pop_curve preg_curve (s, e) cp ipr a
       = Ok sel
    /\ projection_locals outcome "RCP 8.5" pop_curve preg_curve (s, e)
         cp ipr 0 = Ok worst
    /\ projection_locals outcome rcp pop_curve preg_curve (s, e) cp ipr 0
       = Ok zero
    /\ length (g_mitigation_prevented G) = Z.to_nat (e - s + 1)
    /\ length (g_adaptation_prevented G) = Z.to_nat (e - s + 1)
    /\ l_effective_additional_outcomes zero = l_additional_outcomes zero
    /\ forall i, (i < Z.to_nat (e - s + 1))%nat ->
         exists w z x,
           nth_error (l_additional_outcomes worst) i = Some w
           /\ nth_error (l_additional_outcomes zero) i = Some z
           /\ nth_error (l_effective_additional_outcomes sel) i = Some x
           /\ nth_error (g_mitigation_prevented G) i = Some (w - x)
           /\ nth_error (g_adaptation_prevented G) i = Some (z - x).
Proof.
  intros Hk.
  destruct (compute_preview_returns outcome rcp pop_curve preg_curve s e
              cp ipr a p t g h Hk)
    as (sel & worst & zero & Hsel & Hcs & Hworst & Hcw & Hzero & Hcz & HG).
  exists (globals_of p sel worst zero), sel, worst, zero.
  split; [exact HG |].
  split; [exact Hsel | split; [exact Hworst | split; [exact Hzero |]]].
  cbn [globals_of g_mitigation_prevented g_adaptation_prevented].
  destruct Hcs as (_ & _ & _ & _ & _ & _ & _ & _ & _ & _ & _ & _ & _ & _
                   & _ & _ & _ & Heff_s & _).
  destruct Hcw as (_ & _ & _ & _ & _ & _ & _ & _ & _ & _ & _ & _ & _ & _
                   & _ & _ & Hadd_w & _).
  destruct Hcz as (_ & _ & _ & _ & _ & _ & _ & _ & _ & _ & _ & _ & _ & _
                   & _ & _ & Hadd_z & Heff_z & _).
  assert (Hz : forall i, effective_at p t g h s cp ipr 0 i
                         = additional_at p t g h s cp ipr i)
    by (intros i; unfold effective_at; field).
  rewrite Heff_s, Hadd_w, Hadd_z, Heff_z, !zip_sub_maps.
  rewrite !length_map, !length_seq.
  split; [reflexivity | split; [reflexivity |]].
  split; [apply map_ext; exact Hz |].
  intros i Hi.
  exists (additional_at p 4.3 g h s cp ipr i),
         (additional_at p t g h s cp ipr i),
         (effective_at p t g h s cp ipr a i).
  rewrite !map_seq_nth_error by exact Hi.
  repeat (split; [reflexivity |]).
  now rewrite Hz.
Qed.

Lemma prevented_series_witness :
  known_names "Preterm Birth" "RCP 2.6" "Medium Growth" "Medium Growth"
              (mkOutcome 1.04 0.1 32000 1.03 1.06) 1.5 0.02 0.02
  /\ exists G sel worst w x,
       compute_preview DEFAULTS = Ok G
       /\ projection_locals "Preterm Birth" "RCP 2.6" "Medium Growth"
            "Medium Growth" (2024, 2030)%Z 7000000000 0.02 50 = Ok sel
       /\ projection_locals "Preterm Birth" "RCP 8.5" "Medium Growth"
            "Medium Growth" (2024, 2030)%Z 7000000000 0.02 0 = Ok worst
       /\ nth_error (l_additional_outcomes worst) 1 = Some w
       /\ nth_error (l_effective_additional_outcomes sel) 1 = Some x
       /\ nth_error (g_mitigation_prevented G) 1 = Some (w - x).
Proof.
  assert (Hk : known_names "Preterm Birth" "RCP 2.6" "Medium Growth"
                 "Medium Growth" (mkOutcome 1.04 0.1 32000 1.03 1.06)
                 1.5 0.02 0.02)
    by (repeat split; reflexivity).
  split; [exact Hk |].
  destruct (prevented_series "Preterm Birth" "RCP 2.6" "Medium Growth"
              "Medium Growth" 2024 2030 7000000000 0.02 50
              (mkOutcome 1.04 0.1 32000 1.03 1.06) 1.5 0.02 0.02 Hk)
    as (G & sel & worst & zero & HG & Hsel & Hworst & _ & _ & _ & _ & Hnth).
  destruct (Hnth 1%nat) as (w & z & x & Hw & _ & Hx & Hm & _).
  { vm_compute. lia. }
  exists G, sel, worst, w, x. repeat split; assumption.
Defined.

(** ** Rounding *)





(** ** The default scenario, numerically *)






(** The first two years of the default run: nothing in 2024, where the ramp
    starts, and a positive excess and cost in 2025. *)
Lemma default_first_years :
  exists l e0 c0 e1 c1,
    projection_locals "Preterm Birth" "RCP 2.6" "Medium Growth"
      "Medium Growth" (2024, 2030)%Z 7000000000 0.02 50 = Ok l
    /\ nth_error (l_effective_additional_outcomes l) 0 = Some e0
    /\ nth_error (l_costs l) 0 = Some c0
    /\ nth_error (l_effective_additional_outcomes l) 1 = Some e1
    /\ nth_error (l_costs l) 1 = Some c1
    /\ e0 = 0 /\ c0 = 0 /\ 0 < e1 /\ c1 = e1 * 32000.
Proof.
  destruct (projection_returns "Preterm Birth" "RCP 2.6" "Medium Growth"
              "Medium Growth" 2024 2030 7000000000 0.02 50 preterm_birth
              1.5 0.02 0.02) as (l & Hl & Hcf & _).
  { repeat split; reflexivity. }
  closed_form_fields Hcf.
  set (eff := effective_at preterm_birth 1.5 0.02 0.02 2024 7000000000
                           0.02 50).
  exists l, (eff 0%nat), (eff 0%nat * 32000), (eff 1%nat),
    (eff 1%nat * 32000).
  split; [exact Hl |].
  rewrite Hcf_eff, Hcf_costs.
  rewrite !map_seq_nth_error by (vm_compute; lia).
  repeat (split; [reflexivity |]).
  assert (H0 : eff 0%nat = 0).
  { unfold eff, effective_at.
    rewrite additional_at_2024;
      [ring | cbn [odds_ratio preterm_birth]; lra | reflexivity]. }
  split; [exact H0 |]. split; [rewrite H0; ring |]. split; [| reflexivity].
  unfold eff, effective_at.
  apply Rmult_lt_0_compat; [| lra].
  apply additional_at_pos; cbn [odds_ratio current_rate preterm_birth];
    try lra.
  vm_compute. reflexivity.
Qed.





(** * Further properties of the code *)

(** ** The temperature series *)

Lemma temperature_series_closed_form (t : R) (s e : Z) :
  calculate_temperature_increase_per_year t s e
  = map (temperature_at t s) (seq 0 (span s e)).
Proof.
  unfold calculate_temperature_increase_per_year, range.
  replace (Z.to_nat (e + 1 - s)) with (span s e)
    by (unfold span; f_equal; lia).
  now rewrite map_map.
Qed.

(** ** What the tables guarantee to every run *)

Ltac by_rows k :=
  repeat (match goal with
          | |- context [String.eqb ?r k] =>
              destruct (String.eqb r k);
              [intros [= <-]; cbn; repeat split; lra |]
          end);
  discriminate.

Lemma mnch_outcomes_rows (outcome : string) (p : OutcomeProfile) :
  get mnch_outcomes outcome = Some p ->
  1 < odds_ratio p /\ 0 < current_rate p /\ 0 < cost_per_case p
  /\ ci_lower p <= odds_ratio p /\ odds_ratio p <= ci_upper p
  /\ 0 < ci_lower p.
Proof. unfold mnch_outcomes, get. by_rows outcome. Qed.

Lemma rcp_scenarios_rows (rcp : string) (t : R) :
  get rcp_scenarios rcp = Some t -> 0 < t /\ t <= 4.3.
Proof. unfold rcp_scenarios, get. by_rows rcp. Qed.

Lemma population_growth_rates_rows (k : string) (g : R) :
  get population_growth_rates k = Some g -> 0 < g.
Proof. unfold population_growth_rates, get. by_rows k. Qed.

Lemma pregnancy_growth_rates_rows (k : string) (h : R) :
  get pregnancy_growth_rates k = Some h -> 0 < 1 + h.
Proof. unfold pregnancy_growth_rates, get. by_rows k. Qed.

Lemma Rpower_lt_1 (x y : R) : 1 < x -> y < 0 -> Rpower x y < 1.
Proof.
  intros Hx Hy.
  rewrite <- (Rpower_O x) by lra.
  apply Rpower_lt; assumption.
Qed.

Lemma additional_at_factored
    (p : OutcomeProfile) (t g h : R) (s : Z) (cp ipr : R) (i : nat) :
  additional_at p t g h s cp ipr i
  = current_rate p * pregnancies_at g h cp ipr i
    * (Rpower (odds_ratio p) (temperature_at t s i) - 1).
Proof.
  unfold additional_at, projected_at, baseline_at, projected_rate_at. ring.
Qed.

Lemma temperature_at_sign (t : R) (s : Z) (i : nat) :
  0 < t ->
  ((s + Z.of_nat i < 2024)%Z -> temperature_at t s i < 0)
  /\ ((2024 < s + Z.of_nat i)%Z -> 0 < temperature_at t s i).
Proof.
  intros Ht. unfold temperature_at, year_at.
  assert (Hq : 0 < t / IZR (2100 - 2024))
    by (apply Rdiv_lt_0_compat; [assumption | apply IZR_lt; lia]).
  split; intros Hy.
  - assert (Hz : IZR (s + Z.of_nat i - 2024) < 0) by (apply IZR_lt; lia).
    replace (t / IZR (2100 - 2024) * IZR (s + Z.of_nat i - 2024))
      with (- (t / IZR (2100 - 2024) * - IZR (s + Z.of_nat i - 2024)))
      by ring.
    apply Ropp_lt_gt_0_contravar, Rmult_lt_0_compat; lra.
  - apply Rmult_lt_0_compat; [assumption | apply IZR_lt; lia].
Qed.

(** X4. In every projection with known names whose year range contains
    2100, the temperature increase of the year 2100 is the table value of
    the scenario, [rcp_scenarios[rcp_scenario]]. *)
Theorem temperature_at_2100
    (outcome rcp pop_curve preg_curve : string) (s e : Z) (cp ipr a : R)
    (p : OutcomeProfile) (t g h : R) :
  known_names outcome rcp pop_curve preg_curve p t g h ->
  (s <= 2100)%Z -> (2100 <= e)%Z ->
  exists l v,
    projection_locals outcome rcp pop_curve preg_curve (s, e) cp ipr a = Ok l
    /\ get rcp_scenarios rcp = Some t
    /\ nth_error (l_temperature_increase_per_year l) (Z.to_nat (2100 - s))
       = Some v
    /\ v = t.
Proof.
  intros Hk Hs He.
  destruct (projection_returns outcome rcp pop_curve preg_curve s e cp ipr a
              p t g h Hk) as (l & Hl & Hcf & _).
  closed_form_fields Hcf.
  exists l, (temperature_at t s (Z.to_nat (2100 - s))).
  split; [exact Hl |].
  split; [exact (proj1 (proj2 Hk)) |].
  split; [rewrite Hcf_temp; apply map_seq_nth_error; unfold span; lia |].
  unfold temperature_at, year_at.
  replace (s + Z.of_nat (Z.to_nat (2100 - s)) - 2024)%Z with 76%Z by lia.
  simpl Z.sub. field.
Qed.

Lemma temperature_at_2100_witness :
  known_names "Preterm Birth" "RCP 8.5" "Medium Growth" "Medium Growth"
              preterm_birth 4.3 0.02 0.02
  /\ (2024 <= 2100)%Z /\ (2100 <= 2100)%Z
  /\ exists l v,
       projection_locals "Preterm Birth" "RCP 8.5" "Medium Growth"
         "Medium Growth" (2024, 2100)%Z 7000000000 0.02 50 = Ok l
       /\ nth_error (l_temperature_increase_per_year l) 76 = Some v
       /\ v = 4.3.
Proof.
  assert (Hk : known_names "Preterm Birth" "RCP 8.5" "Medium Growth"
                 "Medium Growth" preterm_birth 4.3 0.02 0.02)
    by (repeat split; reflexivity).
  assert (Hs : (2024 <= 2100)%Z) by lia.
  assert (He : (2100 <= 2100)%Z) by lia.
  split; [exact Hk | split; [exact Hs | split; [exact He |]]].
  destruct (temperature_at_2100 "Preterm Birth" "RCP 8.5" "Medium Growth"
              "Medium Growth" 2024 2100 7000000000 0.02 50 preterm_birth
              4.3 0.02 0.02 Hk Hs He) as (l & v & Hl & _ & Hv & Heq).
  exists l, v. repeat split; assumption.
Defined.

(** X5. For every request with known names, a positive population and a
    positive pregnancy rate, the sign of the uncapped additional outcomes
    follows the year: negative before 2024, zero in 2024, positive after. *)
Theorem excess_sign_by_year
    (outcome rcp pop_curve preg_curve : string) (s e : Z) (cp ipr a : R)
    (p : OutcomeProfile) (t g h : R) :
  known_names outcome rcp pop_curve preg_curve p t g h ->
  0 < cp -> 0 < ipr ->
  exists l,
    projection_locals outcome rcp pop_curve preg_curve (s, e) cp ipr a = Ok l
    /\ forall y, (s <= y <= e)%Z ->
         exists v,
           nth_error (l_additional_outcomes l) (Z.to_nat (y - s)) = Some v
           /\ ((y < 2024)%Z -> v < 0)
           /\ (y = 2024%Z -> v = 0)
           /\ ((2024 < y)%Z -> 0 < v).
Proof.
  intros Hk Hcp Hipr.
  destruct (projection_returns outcome rcp pop_curve preg_curve s e cp ipr a
              p t g h Hk) as (l & Hl & Hcf & _).
  destruct Hk as (Hp & Ht & Hg & Hh).
  apply mnch_outcomes_rows in Hp as (Hor & Hcr & _).
  apply rcp_scenarios_rows in Ht as (Ht & _).
  apply population_growth_rates_rows in Hg.
  apply pregnancy_growth_rates_rows in Hh.
  assert (Hrate : 0 < ipr * (1 + h)) by (apply Rmult_lt_0_compat; lra).
  exists l. split; [exact Hl |].
  closed_form_fields Hcf.
  intros y Hy.
  set (i := Z.to_nat (y - s)).
  assert (Hyi : (s + Z.of_nat i)%Z = y) by (unfold i; lia).
  exists (additional_at p t g h s cp ipr i).
  rewrite Hcf_add.
  split; [apply map_seq_nth_error; unfold span, i; lia |].
  pose proof (pregnancies_at_pos g h cp ipr i Hcp ltac:(lra) Hrate) as Hq.
  destruct (temperature_at_sign t s i Ht) as (Hneg & Hpos).
  repeat split.
  - intros Hlt. rewrite additional_at_factored.
    rewrite <- Hyi in Hlt.
    pose proof (Rpower_lt_1 _ _ Hor (Hneg Hlt)) as Hw.
    replace (current_rate p * pregnancies_at g h cp ipr i
             * (Rpower (odds_ratio p) (temperature_at t s i) - 1))
      with (- (current_rate p * pregnancies_at g h cp ipr i
               * (1 - Rpower (odds_ratio p) (temperature_at t s i))))
      by ring.
    apply Ropp_lt_gt_0_contravar.
    apply Rmult_lt_0_compat; [apply Rmult_lt_0_compat |]; lra.
  - intros ->. apply additional_at_2024; [lra | exact Hyi].
  - intros Hgt. apply additional_at_pos; try assumption; lia || lra.
Qed.

Lemma excess_sign_by_year_witness :
  known_names "Stillbirth" "RCP 4.5" "High Growth" "High Reduction"
              (mkOutcome 1.14 0.005 5000 0.99 1.32) 2.4 0.03 (-0.15)
  /\ 0 < 1000000 /\ 0 < 0.03
  /\ exists l v0 v4 v6,
       projection_locals "Stillbirth" "RCP 4.5" "High Growth"
         "High Reduction" (2020, 2026)%Z 1000000 0.03 20 = Ok l
       /\ nth_error (l_additional_outcomes l) 0 = Some v0 /\ v0 < 0
       /\ nth_error (l_additional_outcomes l) 4 = Some v4 /\ v4 = 0
       /\ nth_error (l_additional_outcomes l) 6 = Some v6 /\ 0 < v6.
Proof.
  assert (Hk : known_names "Stillbirth" "RCP 4.5" "High Growth"
                 "High Reduction" (mkOutcome 1.14 0.005 5000 0.99 1.32)
                 2.4 0.03 (-0.15))
    by (repeat split; reflexivity).
  assert (Hcp : 0 < 1000000) by lra.
  assert (Hipr : 0 < 0.03) by lra.
  split; [exact Hk | split; [exact Hcp | split; [exact Hipr |]]].
  destruct (excess_sign_by_year "Stillbirth" "RCP 4.5" "High Growth"
              "High Reduction" 2020 2026 1000000 0.03 20
              (mkOutcome 1.14 0.005 5000 0.99 1.32) 2.4 0.03 (-0.15)
              Hk Hcp Hipr) as (l & Hl & Hsign).
  destruct (Hsign 2020%Z) as (v0 & Hn0 & Hneg & _); [lia |].
  destruct (Hsign 2024%Z) as (v4 & Hn4 & _ & Hzero & _); [lia |].
  destruct (Hsign 2026%Z) as (v6 & Hn6 & _ & _ & Hpos); [lia |].
  exists l, v0, v4, v6.
  split; [exact Hl |].
  split; [exact Hn0 | split; [apply Hneg; lia |]].
  split; [exact Hn4 | split; [apply Hzero; reflexivity |]].
  split; [exact Hn6 | apply Hpos; lia].
Defined.

(** X6. For every request with known names, at every index the lower and
    upper series and the three cost series are ordered by the sign of the
    effective entry [x]: when [x >= 0], [lower <= x <= upper] and
    [0 <= cost_lower <= cost <= cost_upper]; when [x <= 0] both orders
    reverse.  Every cost is its outcome entry times the cost per case. *)
Theorem bounds_bracket_every_run
    (outcome rcp pop_curve preg_curve : string) (s e : Z) (cp ipr a : R)
    (p : OutcomeProfile) (t g h : R) :
  known_names outcome rcp pop_curve preg_curve p t g h ->
  exists l,
    projection_locals outcome rcp pop_curve preg_curve (s, e) cp ipr a = Ok l
    /\ forall i x,
         nth_error (l_effective_additional_outcomes l) i = Some x ->
         exists lo up c clo cup,
           nth_error (l_effective_additional_outcomes_lower l) i = Some lo
           /\ nth_error (l_effective_additional_outcomes_upper l) i = Some up
           /\ nth_error (l_costs l) i = Some c
           /\ nth_error (l_costs_lower l) i = Some clo
           /\ nth_error (l_costs_upper l) i = Some cup
           /\ c = x * cost_per_case p
           /\ clo = lo * cost_per_case p
           /\ cup = up * cost_per_case p
           /\ (0 <= x ->
               lo <= x /\ x <= up /\ 0 <= clo /\ clo <= c /\ c <= cup)
           /\ (x <= 0 ->
               up <= x /\ x <= lo /\ cup <= c /\ c <= clo /\ clo <= 0).
Proof.
  intros Hk.
  destruct (projection_returns outcome rcp pop_curve preg_curve s e cp ipr a
              p t g h Hk) as (l & Hl & Hcf & _).
  destruct Hk as (Hp & _).
  apply mnch_outcomes_rows in Hp as (Hor & _ & Hcost & Hcil & Hciu & Hcil0).
  exists l. split; [exact Hl |].
  closed_form_fields Hcf.
  intros i x Hx.
  rewrite Hcf_eff in Hx. apply map_seq_nth_error_inv in Hx as (Hi & ->).
  exists (effective_lower_at p t g h s cp ipr a i),
         (effective_upper_at p t g h s cp ipr a i),
         (effective_at p t g h s cp ipr a i * cost_per_case p),
         (effective_lower_at p t g h s cp ipr a i * cost_per_case p),
         (effective_upper_at p t g h s cp ipr a i * cost_per_case p).
  rewrite Hcf_efflo, Hcf_effup, Hcf_costs, Hcf_costlo, Hcf_costup.
  rewrite !map_seq_nth_error by exact Hi.
  repeat (split; [reflexivity |]).
  unfold effective_lower_at, effective_upper_at.
  fold (effective_at p t g h s cp ipr a i).
  set (x := effective_at p t g h s cp ipr a i).
  assert (Hinv : 0 < / odds_ratio p) by (apply Rinv_0_lt_compat; lra).
  assert (H1 : odds_ratio p * / odds_ratio p = 1) by (apply Rinv_r; lra).
  set (c := cost_per_case p) in *.
  set (rl := ci_lower p * / odds_ratio p).
  set (ru := ci_upper p * / odds_ratio p).
  assert (Hrl : rl <= 1).
  { unfold rl. rewrite <- H1. apply Rmult_le_compat_r; lra. }
  assert (Hru : 1 <= ru).
  { unfold ru. rewrite <- H1. apply Rmult_le_compat_r; lra. }
  assert (Hrl0 : 0 <= rl).
  { unfold rl. apply Rmult_le_pos; lra. }
  replace (x * ci_lower p / odds_ratio p) with (x * rl)
    by (unfold rl, Rdiv; ring).
  replace (x * ci_upper p / odds_ratio p) with (x * ru)
    by (unfold ru, Rdiv; ring).
  replace (x * rl * c) with (x * c * rl) by ring.
  replace (x * ru * c) with (x * c * ru) by ring.
  split; intros Hsign.
  - assert (Hy : 0 <= x * c) by (apply Rmult_le_pos; lra).
    set (y := x * c) in *. repeat split; nra.
  - assert (Hy : 0 <= - x * c) by (apply Rmult_le_pos; lra).
    replace (- x * c) with (- (x * c)) in Hy by ring.
    set (y := x * c) in *. repeat split; nra.
Qed.

(** The entries of a run at an index inside the range. *)
Lemma run_entries
    (outcome rcp pop_curve preg_curve : string) (s e : Z) (cp ipr a : R)
    (p : OutcomeProfile) (t g h : R) (i : nat) :
  known_names outcome rcp pop_curve preg_curve p t g h ->
  (i < span s e)%nat ->
  exists l,
    projection_locals outcome rcp pop_curve preg_curve (s, e) cp ipr a = Ok l
    /\ nth_error (l_additional_outcomes l) i
       = Some (additional_at p t g h s cp ipr i)
    /\ nth_error (l_effective_additional_outcomes l) i
       = Some (effective_at p t g h s cp ipr a i).
Proof.
  intros Hk Hi.
  destruct (projection_returns outcome rcp pop_curve preg_curve s e cp ipr a
              p t g h Hk) as (l & Hl & Hcf & _).
  closed_form_fields Hcf.
  exists l. rewrite Hcf_add, Hcf_eff, !map_seq_nth_error by exact Hi.
  repeat split; [exact Hl].
Qed.

Lemma bounds_bracket_every_run_witness :
  known_names "Stillbirth" "RCP 4.5" "High Growth" "High Reduction"
              (mkOutcome 1.14 0.005 5000 0.99 1.32) 2.4 0.03 (-0.15)
  /\ exists l x lo up c clo cup,
       projection_locals "Stillbirth" "RCP 4.5" "High Growth"
         "High Reduction" (2020, 2026)%Z 1000000 0.03 20 = Ok l
       /\ nth_error (l_effective_additional_outcomes l) 6 = Some x
       /\ 0 < x
       /\ nth_error (l_effective_additional_outcomes_lower l) 6 = Some lo
       /\ nth_error (l_effective_additional_outcomes_upper l) 6 = Some up
       /\ nth_error (l_costs l) 6 = Some c
       /\ nth_error (l_costs_lower l) 6 = Some clo
       /\ nth_error (l_costs_upper l) 6 = Some cup
       /\ lo <= x /\ x <= up /\ 0 <= clo /\ clo <= c /\ c <= cup.
Proof.
  set (P := mkOutcome 1.14 0.005 5000 0.99 1.32).
  assert (Hk : known_names "Stillbirth" "RCP 4.5" "High Growth"
                 "High Reduction" P 2.4 0.03 (-0.15))
    by (repeat split; reflexivity).
  split; [exact Hk |].
  destruct (bounds_bracket_every_run "Stillbirth" "RCP 4.5" "High Growth"
              "High Reduction" 2020 2026 1000000 0.03 20 P 2.4 0.03 (-0.15)
              Hk) as (l & Hl & Hbr).
  destruct (run_entries "Stillbirth" "RCP 4.5" "High Growth"
              "High Reduction" 2020 2026 1000000 0.03 20 P 2.4 0.03 (-0.15)
              6 Hk) as (l' & Hl' & _ & Hx).
  { vm_compute. lia. }
  assert (El : l' = l) by congruence. subst l'.
  set (x := effective_at P 2.4 0.03 (-0.15) 2020 1000000 0.03 20 6) in *.
  assert (Hpos : 0 < x).
  { unfold x, effective_at.
    apply Rmult_lt_0_compat; [| lra].
    apply additional_at_pos; cbn [odds_ratio current_rate P]; try lra.
    vm_compute. reflexivity. }
  destruct (Hbr 6%nat x Hx)
    as (lo & up & c & clo & cup & Hlo & Hup & Hc & Hclo & Hcup & _ & _ & _
        & Hord & _).
  destruct (Hord (Rlt_le _ _ Hpos)) as (H1 & H2 & H3 & H4 & H5).
  exists l, x, lo, up, c, clo, cup. repeat split; assumption.
Defined.

(** X7. For every request with known names, a positive population and a
    positive pregnancy rate, the uncapped additional outcomes strictly grow
    from each year to the next from 2024 on. *)
Theorem excess_grows
    (outcome rcp pop_curve preg_curve : string) (s e : Z) (cp ipr a : R)
    (p : OutcomeProfile) (t g h : R) :
  known_names outcome rcp pop_curve preg_curve p t g h ->
  0 < cp -> 0 < ipr ->
  exists l,
    projection_locals outcome rcp pop_curve preg_curve (s, e) cp ipr a = Ok l
    /\ forall i v v',
         (2024 <= s + Z.of_nat i)%Z ->
         nth_error (l_additional_outcomes l) i = Some v ->
         nth_error (l_additional_outcomes l) (S i) = Some v' ->
         v < v'.
Proof.
  intros Hk Hcp Hipr.
  destruct (projection_returns outcome rcp pop_curve preg_curve s e cp ipr a
              p t g h Hk) as (l & Hl & Hcf & _).
  destruct Hk as (Hp & Ht & Hg & Hh).
  apply mnch_outcomes_rows in Hp as (Hor & Hcr & _).
  apply rcp_scenarios_rows in Ht as (Ht & _).
  apply population_growth_rates_rows in Hg.
  apply pregnancy_growth_rates_rows in Hh.
  assert (Hrate : 0 < ipr * (1 + h)) by (apply Rmult_lt_0_compat; lra).
  exists l. split; [exact Hl |].
  closed_form_fields Hcf.
  intros i v v' Hy Hv Hv'.
  rewrite Hcf_add in Hv, Hv'.
  apply map_seq_nth_error_inv in Hv as (_ & ->).
  apply map_seq_nth_error_inv in Hv' as (_ & ->).
  rewrite !additional_at_factored.
  pose proof (pregnancies_at_pos g h cp ipr i Hcp ltac:(lra) Hrate) as Hq.
  assert (Hq' : pregnancies_at g h cp ipr (S i)
                = pregnancies_at g h cp ipr i * (1 + g)).
  { unfold pregnancies_at, population_at.
    rewrite !Z.add_0_l, <- !pow_powerRZ. simpl. ring. }
  assert (Htemp : temperature_at t s i < temperature_at t s (S i)).
  { unfold temperature_at, year_at.
    apply Rmult_lt_compat_l.
    - apply Rdiv_lt_0_compat; [assumption | apply IZR_lt; lia].
    - apply IZR_lt. lia. }
  assert (Htemp0 : 0 <= temperature_at t s i).
  { unfold temperature_at, year_at.
    apply Rmult_le_pos.
    - apply Rlt_le, Rdiv_lt_0_compat; [assumption | apply IZR_lt; lia].
    - apply IZR_le. lia. }
  pose proof (Rpower_lt _ _ _ Hor Htemp) as Hw.
  assert (Hw1 : 1 <= Rpower (odds_ratio p) (temperature_at t s i)).
  { rewrite <- (Rpower_O (odds_ratio p)) at 1 by lra.
    apply Rle_Rpower; lra. }
  rewrite Hq'.
  set (q := pregnancies_at g h cp ipr i) in *.
  set (w := Rpower (odds_ratio p) (temperature_at t s i)) in *.
  set (w' := Rpower (odds_ratio p) (temperature_at t s (S i))) in *.
  set (c := current_rate p) in *.
  assert (Hcq : 0 < c * q) by (apply Rmult_lt_0_compat; lra).
  replace (c * q * (w - 1)) with ((c * q) * (w - 1)) by ring.
  replace (c * (q * (1 + g)) * (w' - 1))
    with ((c * q) * ((1 + g) * (w' - 1))) by ring.
  apply Rmult_lt_compat_l; [exact Hcq |].
  nra.
Qed.

Lemma excess_grows_witness :
  known_names "Preterm Birth" "RCP 2.6" "Medium Growth" "Medium Growth"
              preterm_birth 1.5 0.02 0.02
  /\ 0 < 7000000000 /\ 0 < 0.02
  /\ exists l v v',
       projection_locals "Preterm Birth" "RCP 2.6" "Medium Growth"
         "Medium Growth" (2024, 2030)%Z 7000000000 0.02 50 = Ok l
       /\ nth_error (l_additional_outcomes l) 0 = Some v
       /\ nth_error (l_additional_outcomes l) 1 = Some v'
       /\ v < v'.
Proof.
  assert (Hk : known_names "Preterm Birth" "RCP 2.6" "Medium Growth"
                 "Medium Growth" preterm_birth 1.5 0.02 0.02)
    by (repeat split; reflexivity).
  assert (Hcp : 0 < 7000000000) by lra.
  assert (Hipr : 0 < 0.02) by lra.
  split; [exact Hk | split; [exact Hcp | split; [exact Hipr |]]].
  destruct (excess_grows "Preterm Birth" "RCP 2.6" "Medium Growth"
              "Medium Growth" 2024 2030 7000000000 0.02 50 preterm_birth
              1.5 0.02 0.02 Hk Hcp Hipr) as (l & Hl & Hgrow).
  destruct (run_entries "Preterm Birth" "RCP 2.6" "Medium Growth"
              "Medium Growth" 2024 2030 7000000000 0.02 50 preterm_birth
              1.5 0.02 0.02 0 Hk) as (l0 & Hl0 & Hv & _).
  { vm_compute. lia. }
  destruct (run_entries "Preterm Birth" "RCP 2.6" "Medium Growth"
              "Medium Growth" 2024 2030 7000000000 0.02 50 preterm_birth
              1.5 0.02 0.02 1 Hk) as (l1 & Hl1 & Hv' & _).
  { vm_compute. lia. }
  assert (E0 : l0 = l) by congruence. assert (E1 : l1 = l) by congruence.
  subst l0 l1.
  eexists l, _, _.
  split; [exact Hl |]. split; [exact Hv |]. split; [exact Hv' |].
  apply (Hgrow 0%nat _ _ ltac:(vm_compute; discriminate) Hv Hv').
Defined.

(** ** Errors *)

(** X9. The names are looked up in the order outcome, climate scenario,
    population curve, pregnancy curve, and the [KeyError] raised is that of
    the first unknown one, whatever the later names are. *)
Theorem first_unknown_name_reported
    (outcome rcp pop_curve preg_curve : string) (tp : Z * Z) (cp ipr a : R) :
  (get mnch_outcomes outcome = None ->
   calculate_additional_outcomes_and_costs
     outcome rcp pop_curve preg_curve tp cp ipr a = Err (KeyError outcome))
  /\ (get mnch_outcomes outcome <> None ->
      get rcp_scenarios rcp = None ->
      calculate_additional_outcomes_and_costs
        outcome rcp pop_curve preg_curve tp cp ipr a = Err (KeyError rcp))
  /\ (get mnch_outcomes outcome <> None ->
      get rcp_scenarios rcp <> None ->
      get population_growth_rates pop_curve = None ->
      calculate_additional_outcomes_and_costs
        outcome rcp pop_curve preg_curve tp cp ipr a
      = Err (KeyError pop_curve))
  /\ (get mnch_outcomes outcome <> None ->
      get rcp_scenarios rcp <> None ->
      get population_growth_rates pop_curve <> None ->
      get pregnancy_growth_rates preg_curve = None ->
      calculate_additional_outcomes_and_costs
        outcome rcp pop_curve preg_curve tp cp ipr a
      = Err (KeyError preg_curve)).
Proof.
  unfold calculate_additional_outcomes_and_costs, projection_locals, getitem.
  destruct (get mnch_outcomes outcome) as [p |];
    destruct (get rcp_scenarios rcp) as [t |];
    destruct (get population_growth_rates pop_curve) as [g |];
    destruct (get pregnancy_growth_rates preg_curve) as [h |];
    cbn [bind]; repeat split; intros; try reflexivity;
    congruence.
Qed.

Lemma first_unknown_name_reported_witness :
  calculate_additional_outcomes_and_costs
    "Preterm Birth" "RCP 9.9" "Medium Growth" "No Such Trend"
    (2024, 2030)%Z 7000000000 0.02 50 = Err (KeyError "RCP 9.9").
Proof.
  destruct (first_unknown_name_reported "Preterm Birth" "RCP 9.9"
              "Medium Growth" "No Such Trend" (2024, 2030)%Z 7000000000
              0.02 50) as (_ & H & _).
  apply H; [discriminate | reflexivity].
Defined.

(** X10. The preview computation raises [KeyError] for a name exactly when
    the projection of the selected scenario raises [KeyError] for that
    name: the override of the scenario by "RCP 8.5", the adaptation set to 0
    and the later lookups of the outcome never meet an unknown name of their
    own. *)
Theorem preview_key_error_iff (D : Defaults) (k : string) :
  compute_preview D = Err (KeyError k)
  <-> calculate_additional_outcomes_and_costs
        (d_outcome D) (d_rcp_scenario D) (d_population_growth_curve D)
        (d_pregnancy_growth_curve D) (d_time_period D)
        (d_current_population D) (d_initial_pregnancy_rate D)
        (d_adaptation_effectiveness D) = Err (KeyError k).
Proof.
  destruct D as [o r pg pr [s e] cp ipr a].
  cbn [d_outcome d_rcp_scenario d_population_growth_curve
       d_pregnancy_growth_curve d_time_period d_current_population
       d_initial_pregnancy_rate d_adaptation_effectiveness].
  destruct (projection_total o r pg pr s e cp ipr a)
    as [(p & t & g & h & l & Hk & _ & _ & Hr) | (k' & Hk)].
  - destruct (compute_preview_returns o r pg pr s e cp ipr a p t g h Hk)
      as (sel & worst & zero & _ & _ & _ & _ & _ & _ & HG).
    rewrite HG, Hr. split; discriminate.
  - unfold compute_preview.
    cbn [d_outcome d_rcp_scenario d_population_growth_curve
         d_pregnancy_growth_curve d_time_period d_current_population
         d_initial_pregnancy_rate d_adaptation_effectiveness].
    rewrite Hk. cbn [bind]. split; intros [= <-]; reflexivity.
Qed.

Lemma preview_key_error_iff_witness :
  compute_preview
    (mkDefaults "Preterm Birth" "RCP 2.6" "No Such Curve" "Medium Growth"
                (2024, 2030)%Z 7000000000 0.02 50)
  = Err (KeyError "No Such Curve").
Proof.
  apply (preview_key_error_iff
           (mkDefaults "Preterm Birth" "RCP 2.6" "No Such Curve"
                       "Medium Growth" (2024, 2030)%Z 7000000000 0.02 50)
           "No Such Curve").
  reflexivity.
Defined.

(** ** The comparison series *)

Lemma zip_sub_nth (f f' : nat -> R) (n i : nat) (x : R) :
  nth_error (zip_sub (map f (seq 0 n)) (map f' (seq 0 n))) i = Some x ->
  (i < n)%nat /\ x = f i - f' i.
Proof.
  rewrite zip_sub_maps. intros H.
  exact (map_seq_nth_error_inv (fun k => f k - f' k) n i x H).
Qed.

(** The four difference series of a preview, index by index. *)
Lemma preview_differences
    (outcome rcp pop_curve preg_curve : string) (s e : Z) (cp ipr a : R)
    (p : OutcomeProfile) (t g h : R) :
  known_names outcome rcp pop_curve preg_curve p t g h ->
  exists G,
    compute_preview
      (mkDefaults outcome rcp pop_curve preg_curve (s, e) cp ipr a) = Ok G
    /\ g_sy G = map (year_at s) (seq 0 (span s e))
    /\ g_add_outcomes G = map (additional_at p t g h s cp ipr) (seq 0 (span s e))
    /\ g_eff_add_outcomes G
       = map (effective_at p t g h s cp ipr a) (seq 0 (span s e))
    /\ g_costs G
       = map (fun i => effective_at p t g h s cp ipr a i * cost_per_case p)
             (seq 0 (span s e))
    /\ g_worst_add G
       = map (additional_at p 4.3 g h s cp ipr) (seq 0 (span s e))
    /\ g_worst_costs G
       = map (fun i => effective_at p 4.3 g h s cp ipr 0 i * cost_per_case p)
             (seq 0 (span s e))
    /\ g_zero_adapt_outcomes G
       = map (effective_at p t g h s cp ipr 0) (seq 0 (span s e))
    /\ g_zero_adapt_costs G
       = map (fun i => effective_at p t g h s cp ipr 0 i * cost_per_case p)
             (seq 0 (span s e))
    /\ g_mitigation_savings G = zip_sub (g_worst_costs G) (g_costs G)
    /\ g_adaptation_savings G = zip_sub (g_zero_adapt_costs G) (g_costs G)
    /\ g_mitigation_prevented G
       = zip_sub (g_worst_add G) (g_eff_add_outcomes G)
    /\ g_adaptation_prevented G
       = zip_sub (g_zero_adapt_outcomes G) (g_eff_add_outcomes G)
    /\ g_odds_ratio G = odds_ratio p
    /\ g_attrib_frac G = calculate_attributable_fraction (odds_ratio p)
    /\ g_eff_low G
       = map (effective_lower_at p t g h s cp ipr a) (seq 0 (span s e))
    /\ g_eff_up G
       = map (effective_upper_at p t g h s cp ipr a) (seq 0 (span s e))
    /\ g_cost_low G
       = map (fun i => effective_lower_at p t g h s cp ipr a i
                       * cost_per_case p) (seq 0 (span s e))
    /\ g_cost_up G
       = map (fun i => effective_upper_at p t g h s cp ipr a i
                       * cost_per_case p) (seq 0 (span s e)).
Proof.
  intros Hk.
  destruct (compute_preview_returns outcome rcp pop_curve preg_curve s e
              cp ipr a p t g h Hk)
    as (sel & worst & zero & _ & Hcs & _ & Hcw & _ & Hcz & HG).
  exists (globals_of p sel worst zero). split; [exact HG |].
  cbn [globals_of g_sy g_add_outcomes g_eff_add_outcomes g_costs g_worst_add
       g_worst_costs g_zero_adapt_outcomes g_zero_adapt_costs
       g_mitigation_savings g_adaptation_savings g_mitigation_prevented
       g_adaptation_prevented g_odds_ratio g_attrib_frac g_eff_low g_eff_up
       g_cost_low g_cost_up].
  closed_form_fields Hcs.
  destruct Hcw as (_ & _ & _ & _ & _ & _ & _ & _ & _ & _ & _ & _ & _ & _
                   & _ & _ & Hadd_w & _ & _ & _ & Hc_w & _).
  destruct Hcz as (_ & _ & _ & _ & _ & _ & _ & _ & _ & _ & _ & _ & _ & _
                   & _ & _ & _ & Heff_z & _ & _ & Hc_z & _).
  repeat split; assumption || reflexivity.
Qed.

Lemma effective_at_zero
    (p : OutcomeProfile) (t g h : R) (s : Z) (cp ipr : R) (i : nat) :
  effective_at p t g h s cp ipr 0 i = additional_at p t g h s cp ipr i.
Proof. unfold effective_at. field. Qed.

Lemma additional_at_mono_temp
    (p : OutcomeProfile) (t t' g h : R) (s : Z) (cp ipr : R) (i : nat) :
  1 < odds_ratio p -> 0 < current_rate p ->
  0 < cp -> 0 < 1 + g -> 0 < ipr * (1 + h) ->
  t <= t' -> (2024 <= s + Z.of_nat i)%Z ->
  additional_at p t g h s cp ipr i <= additional_at p t' g h s cp ipr i.
Proof.
  intros Hor Hcr Hcp Hg Hr Htt Hy.
  rewrite !additional_at_factored.
  pose proof (pregnancies_at_pos g h cp ipr i Hcp Hg Hr) as Hq.
  apply Rmult_le_compat_l.
  - apply Rlt_le, Rmult_lt_0_compat; assumption.
  - apply Rplus_le_compat_r, Rle_Rpower; [lra |].
    unfold temperature_at, year_at.
    apply Rmult_le_compat_r; [apply IZR_le; lia |].
    apply Rmult_le_compat_r; [| exact Htt].
    apply Rlt_le, Rinv_0_lt_compat, IZR_lt. lia.
Qed.

Lemma additional_at_nonneg
    (p : OutcomeProfile) (t g h : R) (s : Z) (cp ipr : R) (i : nat) :
  1 < odds_ratio p -> 0 < current_rate p -> 0 < t ->
  0 < cp -> 0 < 1 + g -> 0 < ipr * (1 + h) ->
  (2024 <= s + Z.of_nat i)%Z ->
  0 <= additional_at p t g h s cp ipr i.
Proof.
  intros Hor Hcr Ht Hcp Hg Hr Hy.
  destruct (Z.eq_dec (s + Z.of_nat i) 2024) as [E | N].
  - rewrite additional_at_2024; [lra | lra | exact E].
  - apply Rlt_le, additional_at_pos; try assumption. lia.
Qed.

(** X13. In a preview with a positive population, a positive pregnancy rate
    and an adaptation effectiveness within [0, 100], from 2024 on the
    adaptation-prevented cases are non-negative and never exceed the
    mitigation-prevented cases, and likewise for the savings. *)
Theorem mitigation_dominates_adaptation
    (outcome rcp pop_curve preg_curve : string) (s e : Z) (cp ipr a : R)
    (p : OutcomeProfile) (t g h : R) :
  known_names outcome rcp pop_curve preg_curve p t g h ->
  0 < cp -> 0 < ipr -> 0 <= a -> a <= 100 ->
  exists G,
    compute_preview
      (mkDefaults outcome rcp pop_curve preg_curve (s, e) cp ipr a) = Ok G
    /\ forall i m ad ms ads,
         (2024 <= s + Z.of_nat i)%Z ->
         nth_error (g_mitigation_prevented G) i = Some m ->
         nth_error (g_adaptation_prevented G) i = Some ad ->
         nth_error (g_mitigation_savings G) i = Some ms ->
         nth_error (g_adaptation_savings G) i = Some ads ->
         0 <= ad /\ ad <= m /\ 0 <= ads /\ ads <= ms.
Proof.
  intros Hk Hcp Hipr Ha0 Ha100.
  destruct (preview_differences outcome rcp pop_curve preg_curve s e cp ipr a
              p t g h Hk)
    as (G & HG & _ & _ & Heff & Hc & Hwa & Hwc & Hza & Hzc & Hms & Has
        & Hmp & Hap & _).
  destruct Hk as (Hp & Ht & Hg & Hh).
  apply mnch_outcomes_rows in Hp as (Hor & Hcr & Hcost & _).
  apply rcp_scenarios_rows in Ht as (Ht & Ht43).
  apply population_growth_rates_rows in Hg.
  apply pregnancy_growth_rates_rows in Hh.
  assert (Hrate : 0 < ipr * (1 + h)) by (apply Rmult_lt_0_compat; lra).
  exists G. split; [exact HG |].
  rewrite Hms, Has, Hmp, Hap, Heff, Hc, Hwa, Hwc, Hza, Hzc.
  intros i m ad ms ads Hy Hm Had Hmsv Hadsv.
  apply zip_sub_nth in Hm as (_ & ->).
  apply zip_sub_nth in Had as (_ & ->).
  apply zip_sub_nth in Hmsv as (_ & ->).
  apply zip_sub_nth in Hadsv as (_ & ->).
  rewrite !effective_at_zero.
  pose proof (additional_at_nonneg p t g h s cp ipr i Hor Hcr Ht Hcp
                ltac:(lra) Hrate Hy) as Hu.
  pose proof (additional_at_mono_temp p t 4.3 g h s cp ipr i Hor Hcr Hcp
                ltac:(lra) Hrate Ht43 Hy) as Hw.
  unfold effective_at.
  set (u := additional_at p t g h s cp ipr i) in *.
  set (w := additional_at p 4.3 g h s cp ipr i) in *.
  set (c := cost_per_case p) in *.
  assert (Had : 0 <= u - u * (1 - a / 100)).
  { replace (u - u * (1 - a / 100)) with (u * (a / 100)) by field.
    apply Rmult_le_pos; lra. }
  assert (Hmd : u - u * (1 - a / 100) <= w - u * (1 - a / 100)) by lra.
  repeat split; try assumption.
  - replace (u * c - u * (1 - a / 100) * c)
      with ((u - u * (1 - a / 100)) * c) by ring.
    apply Rmult_le_pos; lra.
  - replace (u * c - u * (1 - a / 100) * c)
      with ((u - u * (1 - a / 100)) * c) by ring.
    replace (w * c - u * (1 - a / 100) * c)
      with ((w - u * (1 - a / 100)) * c) by ring.
    apply Rmult_le_compat_r; lra.
Qed.

Lemma mitigation_dominates_adaptation_witness :
  known_names "Preterm Birth" "RCP 2.6" "Medium Growth" "Medium Growth"
              preterm_birth 1.5 0.02 0.02
  /\ 0 < 7000000000 /\ 0 < 0.02 /\ 0 <= 50 /\ 50 <= 100
  /\ exists G m ad ms ads,
       compute_preview DEFAULTS = Ok G
       /\ nth_error (g_mitigation_prevented G) 1 = Some m
       /\ nth_error (g_adaptation_prevented G) 1 = Some ad
       /\ nth_error (g_mitigation_savings G) 1 = Some ms
       /\ nth_error (g_adaptation_savings G) 1 = Some ads
       /\ 0 <= ad /\ ad <= m /\ 0 <= ads /\ ads <= ms.
Proof.
  assert (Hk : known_names "Preterm Birth" "RCP 2.6" "Medium Growth"
                 "Medium Growth" preterm_birth 1.5 0.02 0.02)
    by (repeat split; reflexivity).
  assert (Hcp : 0 < 7000000000) by lra.
  assert (Hipr : 0 < 0.02) by lra.
  assert (Ha0 : 0 <= 50) by lra.
  assert (Ha100 : 50 <= 100) by lra.
  split; [exact Hk |].
  split; [exact Hcp | split; [exact Hipr |]].
  split; [exact Ha0 | split; [exact Ha100 |]].
  destruct (mitigation_dominates_adaptation "Preterm Birth" "RCP 2.6"
              "Medium Growth" "Medium Growth" 2024 2030 7000000000 0.02 50
              preterm_birth 1.5 0.02 0.02 Hk Hcp Hipr Ha0 Ha100)
    as (G & HG & Hdom).
  destruct (preview_differences "Preterm Birth" "RCP 2.6" "Medium Growth"
              "Medium Growth" 2024 2030 7000000000 0.02 50 preterm_birth
              1.5 0.02 0.02 Hk)
    as (G' & HG' & _ & _ & Heff & Hc & Hwa & Hwc & Hza & Hzc & Hms & Has
        & Hmp & Hap & _).
  assert (EG : G' = G) by congruence. subst G'.
  assert (H1 : (1 < span 2024 2030)%nat) by (vm_compute; lia).
  assert (Hm : exists m, nth_error (g_mitigation_prevented G) 1 = Some m).
  { rewrite Hmp, Hwa, Heff, zip_sub_maps, map_seq_nth_error by exact H1.
    eexists. reflexivity. }
  assert (Had : exists ad, nth_error (g_adaptation_prevented G) 1 = Some ad).
  { rewrite Hap, Hza, Heff, zip_sub_maps, map_seq_nth_error by exact H1.
    eexists. reflexivity. }
  assert (Hmsv : exists ms, nth_error (g_mitigation_savings G) 1 = Some ms).
  { rewrite Hms, Hwc, Hc, zip_sub_maps, map_seq_nth_error by exact H1.
    eexists. reflexivity. }
  assert (Hasv : exists ads, nth_error (g_adaptation_savings G) 1 = Some ads).
  { rewrite Has, Hzc, Hc, zip_sub_maps, map_seq_nth_error by exact H1.
    eexists. reflexivity. }
  destruct Hm as (m & Hm). destruct Had as (ad & Had).
  destruct Hmsv as (ms & Hmsv). destruct Hasv as (ads & Hasv).
  destruct (Hdom 1%nat m ad ms ads ltac:(vm_compute; discriminate)
              Hm Had Hmsv Hasv) as (R1 & R2 & R3 & R4).
  exists G, m, ad, ms, ads. repeat split; assumption.
Defined.

(** ** The attributable fraction *)

(** X16. In every preview the attributable fraction of the selected outcome
    lies strictly between 0 and 1. *)
Theorem preview_attributable_fraction_range
    (outcome rcp pop_curve preg_curve : string) (s e : Z) (cp ipr a : R)
    (p : OutcomeProfile) (t g h : R) :
  known_names outcome rcp pop_curve preg_curve p t g h ->
  exists G,
    compute_preview
      (mkDefaults outcome rcp pop_curve preg_curve (s, e) cp ipr a) = Ok G
    /\ g_odds_ratio G = odds_ratio p
    /\ 0 < g_attrib_frac G /\ g_attrib_frac G < 1.
Proof.
  intros Hk.
  destruct (preview_differences outcome rcp pop_curve preg_curve s e cp ipr a
              p t g h Hk)
    as (G & HG & _ & _ & _ & _ & _ & _ & _ & _ & _ & _ & _ & _ & Hor & Haf
        & _).
  destruct Hk as (Hp & _).
  apply mnch_outcomes_rows in Hp as (H1 & _).
  exists G. split; [exact HG | split; [exact Hor |]].
  rewrite Haf. unfold calculate_attributable_fraction.
  assert (E : (odds_ratio p - 1) / odds_ratio p = 1 - / odds_ratio p)
    by (field; lra).
  assert (Hinv : 0 < / odds_ratio p) by (apply Rinv_0_lt_compat; lra).
  assert (Hlt : / odds_ratio p < 1).
  { rewrite <- Rinv_1. apply Rinv_lt_contravar; lra. }
  rewrite E. split; lra.
Qed.

Lemma preview_attributable_fraction_range_witness :
  known_names "Preterm Birth" "RCP 2.6" "Medium Growth" "Medium Growth"
              preterm_birth 1.5 0.02 0.02
  /\ exists G,
       compute_preview DEFAULTS = Ok G
       /\ g_odds_ratio G = 1.04
       /\ 0 < g_attrib_frac G /\ g_attrib_frac G < 1.
Proof.
  assert (Hk : known_names "Preterm Birth" "RCP 2.6" "Medium Growth"
                 "Medium Growth" preterm_birth 1.5 0.02 0.02)
    by (repeat split; reflexivity).
  split; [exact Hk |].
  exact (preview_attributable_fraction_range "Preterm Birth" "RCP 2.6"
           "Medium Growth" "Medium Growth" 2024 2030 7000000000 0.02 50
           preterm_birth 1.5 0.02 0.02 Hk).
Defined.

(** ** Figure data *)

Lemma band_lengths (sy : list Z) (upper lower : list R) :
  length (trace_x (band sy upper lower)) = (2 * length sy)%nat
  /\ length (trace_y (band sy upper lower))
     = (length upper + length lower)%nat.
Proof.
  unfold band; cbn [trace_x trace_y].
  rewrite !length_app, !length_rev. split; lia.
Qed.

(** A band goes out along the upper series and comes back along the lower
    one: the points [k] and [2n - 1 - k] are the two ends of year [k]. *)
Lemma band_points (sy : list Z) (upper lower : list R) (k : nat) :
  length upper = length sy -> length lower = length sy ->
  (k < length sy)%nat ->
  nth_error (trace_x (band sy upper lower)) k = nth_error sy k
  /\ nth_error (trace_x (band sy upper lower)) (2 * length sy - 1 - k)
     = nth_error sy k
  /\ nth_error (trace_y (band sy upper lower)) k = nth_error upper k
  /\ nth_error (trace_y (band sy upper lower)) (2 * length sy - 1 - k)
     = nth_error lower k.
Proof.
  intros Hu Hl Hk.
  unfold band; cbn [trace_x trace_y].
  assert (Hback : forall (A : Type) (front back : list A),
            length front = length sy -> length back = length sy ->
            nth_error (front ++ rev back) (2 * length sy - 1 - k)
            = nth_error back k).
  { intros A front back Hf Hb.
    rewrite nth_error_app2 by lia.
    rewrite nth_error_rev, Hf, Hb.
    replace (2 * length sy - 1 - k - length sy <? length sy)%nat with true
      by (symmetry; apply Nat.ltb_lt; lia).
    f_equal. lia. }
  rewrite (Hback Z sy sy eq_refl eq_refl), (Hback R upper lower Hu Hl).
  rewrite (nth_error_app1 sy) by lia.
  rewrite (nth_error_app1 upper) by lia.
  repeat split; reflexivity.
Qed.

(** X17. In every preview the temperature series plotted is the one the
    selected run used, and in each of the thirteen traces of the four
    figures the [x] and [y] data have the same length. *)
Theorem figure_traces_aligned
    (outcome rcp pop_curve preg_curve : string) (s e : Z) (cp ipr a : R)
    (p : OutcomeProfile) (t g h : R) :
  known_names outcome rcp pop_curve preg_curve p t g h ->
  exists G temps sel,
    compute_preview
      (mkDefaults outcome rcp pop_curve preg_curve (s, e) cp ipr a) = Ok G
    /\ temp_series
         (mkDefaults outcome rcp pop_curve preg_curve (s, e) cp ipr a)
       = Ok temps
    /\ projection_locals outcome rcp pop_curve preg_curve (s, e) cp ipr a
       = Ok sel
    /\ temps = l_temperature_increase_per_year sel
    /\ Forall (fun tr => length (trace_x tr) = length (trace_y tr))
              (fig_outcomes_traces G temps ++ fig_prevent_traces G
               ++ fig_costs_traces G ++ fig_savings_traces G).
Proof.
  intros Hk.
  destruct (preview_differences outcome rcp pop_curve preg_curve s e cp ipr a
              p t g h Hk)
    as (G & HG & Hsy & _ & Heff & Hc & Hwa & Hwc & Hza & Hzc & _ & _ & _ & _
        & _ & _ & Hel & Heu & Hcl & Hcu).
  destruct (projection_returns outcome rcp pop_curve preg_curve s e cp ipr a
              p t g h Hk) as (sel & Hsel & Hcf & _).
  closed_form_fields Hcf.
  exists G, (l_temperature_increase_per_year sel), sel.
  split; [exact HG |]. split.
  { unfold temp_series, getitem.
    cbn [d_rcp_scenario d_time_period fst snd].
    destruct Hk as (_ & Ht & _). rewrite Ht. cbn [bind].
    now rewrite Hcf_temp, temperature_series_closed_form. }
  split; [exact Hsel | split; [reflexivity |]].
  unfold fig_outcomes_traces, fig_prevent_traces, fig_costs_traces,
    fig_savings_traces.
  cbn [app].
  repeat (apply Forall_cons; [| ]); try apply Forall_nil;
    cbn [trace_x trace_y];
    rewrite ?(proj1 (band_lengths _ _ _)), ?(proj2 (band_lengths _ _ _));
    rewrite ?Hsy, ?Heff, ?Hc, ?Hwa, ?Hwc, ?Hza, ?Hzc, ?Hel, ?Heu, ?Hcl, ?Hcu,
      ?Hcf_temp;
    rewrite ?length_map, ?length_seq; lia.
Qed.

Lemma figure_traces_aligned_witness :
  known_names "Preterm Birth" "RCP 2.6" "Medium Growth" "Medium Growth"
              preterm_birth 1.5 0.02 0.02
  /\ exists G temps,
       compute_preview DEFAULTS = Ok G
       /\ temp_series DEFAULTS = Ok temps
       /\ Forall (fun tr => length (trace_x tr) = length (trace_y tr))
                 (fig_outcomes_traces G temps ++ fig_prevent_traces G
                  ++ fig_costs_traces G ++ fig_savings_traces G).
Proof.
  assert (Hk : known_names "Preterm Birth" "RCP 2.6" "Medium Growth"
                 "Medium Growth" preterm_birth 1.5 0.02 0.02)
    by (repeat split; reflexivity).
  split; [exact Hk |].
  destruct (figure_traces_aligned "Preterm Birth" "RCP 2.6" "Medium Growth"
              "Medium Growth" 2024 2030 7000000000 0.02 50 preterm_birth
              1.5 0.02 0.02 Hk) as (G & temps & sel & HG & Ht & _ & _ & HF).
  exists G, temps. repeat split; assumption.
Defined.

(** X18. In every preview, each of the four benefit bands (mitigation and
    adaptation benefit in the prevention figure, mitigation and adaptation
    savings in the savings figure) visits every year twice, at the points
    [k] and [2n - 1 - k], and the height of the band at that year is the
    entry of the corresponding prevented or savings series. *)
Theorem benefit_band_heights
    (outcome rcp pop_curve preg_curve : string) (s e : Z) (cp ipr a : R)
    (p : OutcomeProfile) (t g h : R) :
  known_names outcome rcp pop_curve preg_curve p t g h ->
  exists G,
    compute_preview
      (mkDefaults outcome rcp pop_curve preg_curve (s, e) cp ipr a) = Ok G
    /\ forall B series,
         In (Some B, series)
            [ (nth_error (fig_prevent_traces G) 2, g_mitigation_prevented G);
              (nth_error (fig_prevent_traces G) 3, g_adaptation_prevented G);
              (nth_error (fig_savings_traces G) 2, g_mitigation_savings G);
              (nth_error (fig_savings_traces G) 3, g_adaptation_savings G) ]
         ->
         forall k, (k < length (g_sy G))%nat ->
           exists top bottom,
             nth_error (trace_x B) k = Some (s + Z.of_nat k)%Z
             /\ nth_error (trace_x B) (2 * length (g_sy G) - 1 - k)
                = Some (s + Z.of_nat k)%Z
             /\ nth_error (trace_y B) k = Some top
             /\ nth_error (trace_y B) (2 * length (g_sy G) - 1 - k)
                = Some bottom
             /\ nth_error series k = Some (top - bottom).
Proof.
  intros Hk.
  destruct (preview_differences outcome rcp pop_curve preg_curve s e cp ipr a
              p t g h Hk)
    as (G & HG & Hsy & _ & Heff & Hc & Hwa & Hwc & Hza & Hzc & Hms & Has
        & Hmp & Hap & _).
  exists G. split; [exact HG |].
  assert (Hn : length (g_sy G) = span s e)
    by now rewrite Hsy, length_map, length_seq.
  assert (Hgen : forall (f f' : nat -> R) (k : nat),
            (k < length (g_sy G))%nat ->
            let B := band (g_sy G) (map f (seq 0 (span s e)))
                          (map f' (seq 0 (span s e))) in
            exists top bottom,
              nth_error (trace_x B) k = Some (s + Z.of_nat k)%Z
              /\ nth_error (trace_x B) (2 * length (g_sy G) - 1 - k)
                 = Some (s + Z.of_nat k)%Z
              /\ nth_error (trace_y B) k = Some top
              /\ nth_error (trace_y B) (2 * length (g_sy G) - 1 - k)
                 = Some bottom
              /\ nth_error (zip_sub (map f (seq 0 (span s e)))
                                    (map f' (seq 0 (span s e)))) k
                 = Some (top - bottom)).
  { intros f f' k Hlt B.
    destruct (band_points (g_sy G) (map f (seq 0 (span s e)))
                (map f' (seq 0 (span s e))) k) as (X1 & X2 & Y1 & Y2);
      try (rewrite length_map, length_seq; congruence); try exact Hlt.
    exists (f k), (f' k). fold B in X1, X2, Y1, Y2.
    rewrite X1, X2, Y1, Y2, zip_sub_maps, Hsy.
    rewrite !map_seq_nth_error by (rewrite <- Hn; exact Hlt).
    repeat split; reflexivity. }
  intros B series HIn k Hlt.
  cbn [fig_prevent_traces fig_savings_traces nth_error In] in HIn.
  destruct HIn as [E | [E | [E | [E | []]]]];
    injection E as <- <-;
    rewrite ?Hms, ?Has, ?Hmp, ?Hap, ?Heff, ?Hc, ?Hwa, ?Hwc, ?Hza, ?Hzc;
    apply Hgen; exact Hlt.
Qed.

Lemma benefit_band_heights_witness :
  known_names "Preterm Birth" "RCP 2.6" "Medium Growth" "Medium Growth"
              preterm_birth 1.5 0.02 0.02
  /\ exists G B top bottom,
       compute_preview DEFAULTS = Ok G
       /\ nth_error (fig_prevent_traces G) 2 = Some B
       /\ nth_error (trace_x B) 1 = Some 2025%Z
       /\ nth_error (trace_x B) 12 = Some 2025%Z
       /\ nth_error (trace_y B) 1 = Some top
       /\ nth_error (trace_y B) 12 = Some bottom
       /\ nth_error (g_mitigation_prevented G) 1 = Some (top - bottom).
Proof.
  assert (Hk : known_names "Preterm Birth" "RCP 2.6" "Medium Growth"
                 "Medium Growth" preterm_birth 1.5 0.02 0.02)
    by (repeat split; reflexivity).
  split; [exact Hk |].
  destruct (benefit_band_heights "Preterm Birth" "RCP 2.6" "Medium Growth"
              "Medium Growth" 2024 2030 7000000000 0.02 50 preterm_birth
              1.5 0.02 0.02 Hk) as (G & HG & Hband).
  destruct (preview_differences "Preterm Birth" "RCP 2.6" "Medium Growth"
              "Medium Growth" 2024 2030 7000000000 0.02 50 preterm_birth
              1.5 0.02 0.02 Hk) as (G' & HG' & Hsy & _).
  assert (EG : G' = G) by congruence. subst G'.
  assert (Hn : length (g_sy G) = 7%nat)
    by (rewrite Hsy, length_map, length_seq; reflexivity).
  destruct (Hband (band (g_sy G) (g_worst_add G) (g_eff_add_outcomes G))
              (g_mitigation_prevented G) (or_introl eq_refl) 1%nat)
    as (top & bottom & X1 & X2 & Y1 & Y2 & Hd).
  { rewrite Hn. lia. }
  rewrite Hn in X2, Y2.
  exists G, (band (g_sy G) (g_worst_add G) (g_eff_add_outcomes G)),
    top, bottom.
  split; [exact HG |]. split; [reflexivity |].
  repeat split; assumption.
Defined.

(** ** The years shown in the titles *)

(** X19. [sy[0]] and [sy[-1]] of a run are the start and the end year when
    the range is not empty; for an empty range ([end_year < start_year]) the
    run still returns, but indexing its years raises [IndexError], so no
    title can be built. *)
Theorem title_years_of_run
    (outcome rcp pop_curve preg_curve : string) (s e : Z) (cp ipr a : R)
    (p : OutcomeProfile) (t g h : R) :
  known_names outcome rcp pop_curve preg_curve p t g h ->
  exists sy eff costs add lo up clo cup,
    calculate_additional_outcomes_and_costs
      outcome rcp pop_curve preg_curve (s, e) cp ipr a
      = Ok (sy, eff, costs, add, lo, up, clo, cup)
    /\ ((s <= e)%Z -> title_years sy = Some (s, e))
    /\ ((e < s)%Z ->
        title_years sy = None /\ list_getitem sy 0 = None
        /\ list_getitem sy (-1) = None).
Proof.
  intros Hk.
  destruct (projection_returns outcome rcp pop_curve preg_curve s e cp ipr a
              p t g h Hk) as (l & _ & Hcf & Hr).
  closed_form_fields Hcf.
  do 8 eexists. split; [exact Hr |].
  rewrite Hcf_years.
  unfold title_years, list_getitem.
  rewrite length_map, length_seq.
  split; intros Hse.
  - assert (Hn : Z.of_nat (span s e) = (e - s + 1)%Z) by (unfold span; lia).
    rewrite Hn. cbn [Z.ltb Z.compare].
    replace (0 <? 0)%Z with false by reflexivity.
    replace (e - s + 1 <=? 0)%Z with false by (symmetry; apply Z.leb_gt; lia).
    replace (-1 + (e - s + 1) <? 0)%Z with false
      by (symmetry; apply Z.ltb_ge; lia).
    replace (e - s + 1 <=? -1 + (e - s + 1))%Z with false
      by (symmetry; apply Z.leb_gt; lia).
    cbn [orb].
    rewrite !map_seq_nth_error by (unfold span; lia).
    unfold year_at. f_equal. f_equal; lia.
  - replace (span s e) with 0%nat by (unfold span; lia).
    repeat split; reflexivity.
Qed.

Lemma title_years_of_run_witness :
  known_names "Preterm Birth" "RCP 2.6" "Medium Growth" "Medium Growth"
              preterm_birth 1.5 0.02 0.02
  /\ (exists sy eff costs add lo up clo cup,
        calculate_additional_outcomes_and_costs
          "Preterm Birth" "RCP 2.6" "Medium Growth" "Medium Growth"
          (2024, 2030)%Z 7000000000 0.02 50
          = Ok (sy, eff, costs, add, lo, up, clo, cup)
        /\ title_years sy = Some (2024, 2030)%Z)
  /\ (exists sy eff costs add lo up clo cup,
        calculate_additional_outcomes_and_costs
          "Preterm Birth" "RCP 2.6" "Medium Growth" "Medium Growth"
          (2030, 2024)%Z 7000000000 0.02 50
          = Ok (sy, eff, costs, add, lo, up, clo, cup)
        /\ title_years sy = None).
Proof.
  assert (Hk : known_names "Preterm Birth" "RCP 2.6" "Medium Growth"
                 "Medium Growth" preterm_birth 1.5 0.02 0.02)
    by (repeat split; reflexivity).
  split; [exact Hk |]. split.
  - destruct (title_years_of_run "Preterm Birth" "RCP 2.6" "Medium Growth"
                "Medium Growth" 2024 2030 7000000000 0.02 50 preterm_birth
                1.5 0.02 0.02 Hk)
      as (sy & eff & costs & add & lo & up & clo & cup & Hr & Hok & _).
    exists sy, eff, costs, add, lo, up, clo, cup.
    split; [exact Hr | apply Hok; lia].
  - destruct (title_years_of_run "Preterm Birth" "RCP 2.6" "Medium Growth"
                "Medium Growth" 2030 2024 7000000000 0.02 50 preterm_birth
                1.5 0.02 0.02 Hk)
      as (sy & eff & costs & add & lo & up & clo & cup & Hr & _ & Hempty).
    exists sy, eff, costs, add, lo, up, clo, cup.
    split; [exact Hr | apply Hempty; lia].
Defined.
